(** * hetcall: batch orchestration of the ANGSD/ROH Snakemake pipeline

    A shallow embedding of [hetcall.py] and the properties of its
    list resolution, configuration synthesis, per-sample run and batch
    aggregation.

    Modelling conventions.
    - Text is a [string] of bytes holding ASCII text (UTF-8 for anything
      else); white space and letter case are those of ASCII.
    - The file system is a finite map from path to the content of a readable
      regular text file; paths are compared literally.
    - Standard output and standard error are the lists of the strings handed
      to [print], oldest first.
    - The operator answers every [input] prompt: standard input is an
      unbounded supply of lines.
    - Writing a file and starting the engine do not fail; what the engine
      does to the files is its own business.
    - The external engine, the YAML serializer and Python's [float] and [int]
      constructors on strings are parameters of the development, collected
      in the record [env].
    - [sys.exit] and an exception nobody catches are outcomes of a
      computation; both end the program. *)

From Stdlib Require Import ZArith String Ascii List Floats DecimalString DecimalZ Lia.
From stdpp Require Import gmap strings list fin_maps.

Open Scope Z_scope.

(** ** Python's string and path functions *)

Module Py.

(** [str.isspace] on one ASCII character: tab, line feed, vertical tab,
    form feed, carriage return, the four separators 28..31 and the space. *)
Definition isspace (c : ascii) : bool :=
  let n := nat_of_ascii c in
  ((9 <=? n)%nat && (n <=? 13)%nat) || ((28 <=? n)%nat && (n <=? 32)%nat).

(** [str.lower] on one ASCII character. *)
Definition lower_char (c : ascii) : ascii :=
  let n := nat_of_ascii c in
  if (65 <=? n)%nat && (n <=? 90)%nat then ascii_of_nat (n + 32) else c.

Fixpoint lower (s : string) : string :=
  match s with
  | EmptyString => EmptyString
  | String c s' => String (lower_char c) (lower s')
  end.

Fixpoint lstrip (s : string) : string :=
  match s with
  | EmptyString => EmptyString
  | String c s' => if isspace c then lstrip s' else s
  end.

Fixpoint rstrip (s : string) : string :=
  match s with
  | EmptyString => EmptyString
  | String c s' =>
      match rstrip s' with
      | EmptyString => if isspace c then EmptyString else String c EmptyString
      | r => String c r
      end
  end.

(** [s.strip()] *)
Definition strip (s : string) : string := rstrip (lstrip s).

(** [s.startswith(p)] *)
Fixpoint startswith (p s : string) : bool :=
  match p, s with
  | EmptyString, _ => true
  | String a p', String b s' => Ascii.eqb a b && startswith p' s'
  | String _ _, EmptyString => false
  end.

(** [s.split()]: the maximal runs of non-space characters, in order.
    [cur] is the run being read. *)
Fixpoint split_from (cur s : string) : list string :=
  match s with
  | EmptyString => if String.eqb cur "" then [] else [cur]
  | String c s' =>
      if isspace c
      then (if String.eqb cur "" then split_from "" s'
            else cur :: split_from "" s')
      else split_from (cur +:+ String c "") s'
  end.

Definition split (s : string) : list string := split_from "" s.

(** [' '.join(l)] *)
Fixpoint join (sep : string) (l : list string) : string :=
  match l with
  | [] => ""
  | [x] => x
  | x :: rest => x +:+ sep +:+ join sep rest
  end.

(** [c * n] for a one-character string [c]. *)
Fixpoint repeat_char (c : ascii) (n : nat) : string :=
  match n with
  | O => ""
  | S n' => String c (repeat_char c n')
  end.

(** [str(n)] for an integer. *)
Definition str (n : Z) : string := NilZero.string_of_int (Z.to_int n).

(** Iterating over a file opened in text mode: the lines of the content,
    each ended by a line feed except possibly the last one; a carriage
    return, alone or before a line feed, also ends a line and is read as a
    line feed (universal newlines). [cur] is the line being read. *)
Fixpoint lines_from (cur s : string) : list string :=
  match s with
  | EmptyString => if String.eqb cur "" then [] else [cur]
  | String c s' =>
      if Ascii.eqb c "010" then (cur +:+ String "010" "") :: lines_from "" s'
      else if Ascii.eqb c "013" then
        match s' with
        | String d s'' =>
            if Ascii.eqb d "010"
            then (cur +:+ String "010" "") :: lines_from "" s''
            else (cur +:+ String "010" "") :: lines_from "" s'
        | EmptyString => [cur +:+ String "010" ""]
        end
      else lines_from (cur +:+ String c "") s'
  end.

Definition file_lines (content : string) : list string := lines_from "" content.

(** [s.rfind(c)] for a character [c], where [i] is the index of the first
    character of [s]; -1 when [c] does not occur. *)
Fixpoint rfind_from (c : ascii) (i : Z) (s : string) : Z :=
  match s with
  | EmptyString => -1
  | String d s' =>
      let r := rfind_from c (i + 1) s' in
      if 0 <=? r then r else if Ascii.eqb c d then i else -1
  end.

Definition rfind (c : ascii) (s : string) : Z := rfind_from c 0 s.

(** [s[:n]] and [s[n:]] for [0 <= n]. *)
Fixpoint take (n : nat) (s : string) : string :=
  match n, s with
  | S n', String c s' => String c (take n' s')
  | _, _ => EmptyString
  end.

Fixpoint drop (n : nat) (s : string) : string :=
  match n, s with
  | S n', String _ s' => drop n' s'
  | _, _ => s
  end.

(** [posixpath.basename]: [i = p.rfind('/') + 1; return p[i:]]. *)
Definition basename (p : string) : string :=
  drop (Z.to_nat (rfind "/" p + 1)) p.

(** The [while] loop of [genericpath._splitext]: is there a character
    other than the dot among the [n] characters of [p] from index [i]? *)
Fixpoint has_non_dot (p : string) (i n : nat) : bool :=
  match n with
  | O => false
  | S n' =>
      match String.get i p with
      | Some c => if Ascii.eqb c "." then has_non_dot p (S i) n' else true
      | None => true
      end
  end.

(** [posixpath.splitext]: split at the last dot of the last path component,
    unless that component has only dots before it. *)
Definition splitext (p : string) : string * string :=
  let sepIndex := rfind "/" p in
  let dotIndex := rfind "." p in
  if (sepIndex <? dotIndex)
     && has_non_dot p (Z.to_nat (sepIndex + 1)) (Z.to_nat (dotIndex - (sepIndex + 1)))
  then (take (Z.to_nat dotIndex) p, drop (Z.to_nat dotIndex) p)
  else (p, "").

End Py.

(** ** The world the program runs in *)

(** What a list file yields per line (lines 85-97): a pair of BAM path and
    prefix in a list of type [bams], a number otherwise. *)
Inductive item :=
| Pair (bam_path prefix : string)
| Num (x : float).

(** The values a configuration holds. *)
Inductive value :=
| VNone
| VStr (s : string)
| VInt (n : Z)
| VItem (i : item)
| VList (l : list item).

(** A [dict], in insertion order. *)
Definition config := list (string * value).

Fixpoint dict_set (k : string) (v : value) (d : config) : config :=
  match d with
  | [] => [(k, v)]
  | (k', v') :: d' =>
      if String.eqb k k' then (k, v) :: d' else (k', v') :: dict_set k v d'
  end.

Fixpoint dict_get (k : string) (d : config) : option value :=
  match d with
  | [] => None
  | (k', v') :: d' => if String.eqb k k' then Some v' else dict_get k d'
  end.

(** The collaborators the program calls and does not define. *)
Record env := Env {
  (** [float(s)]; [None] stands for [ValueError] *)
  float_of_str : string -> option float;
  (** [int(s)]; [None] stands for [ValueError] *)
  int_of_str : string -> option Z;
  (** [yaml.safe_dump(cfg, sort_keys=False)] *)
  safe_dump : config -> string;
  (** the engine started by [subprocess.call]: from the command line and
      the files it finds to its exit code and the files it leaves *)
  snakemake : list string -> gmap string string -> Z * gmap string string;
}.

Record world := World {
  fs : gmap string string;
  answers : nat -> string;
  asked : nat;
  stdout : list string;
  stderr : list string;
  procs : list (list string);
}.

Inductive outcome (A : Type) :=
| Ret (a : A)
| Exit (code : Z)
| Uncaught (exn : string).
Arguments Ret {A} a.
Arguments Exit {A} code.
Arguments Uncaught {A} exn.

Definition M (A : Type) : Type := world -> outcome A * world.

Definition ret {A} (a : A) : M A := fun w => (Ret a, w).

Definition bind {A B} (m : M A) (k : A -> M B) : M B :=
  fun w =>
    match m w with
    | (Ret a, w') => k a w'
    | (Exit c, w') => (Exit c, w')
    | (Uncaught e, w') => (Uncaught e, w')
    end.

Notation "'do' x <- m ;; k" := (bind m (fun x => k))
  (at level 10, x name, m at level 99, k at level 200, only parsing).

(** [sys.exit(code)] *)
Definition sys_exit {A} (code : Z) : M A := fun w => (Exit code, w).

Definition raise {A} (exn : string) : M A := fun w => (Uncaught exn, w).

(** The world after a string went to standard output, to standard error,
    after the operator's next line was taken, and after a file was written. *)
Definition out (s : string) (w : world) : world :=
  World (fs w) (answers w) (asked w) (stdout w ++ [s]) (stderr w) (procs w).

Definition err (s : string) (w : world) : world :=
  World (fs w) (answers w) (asked w) (stdout w) (stderr w ++ [s]) (procs w).

Definition consumed (w : world) : world :=
  World (fs w) (answers w) (S (asked w)) (stdout w) (stderr w) (procs w).

Definition written (path content : string) (w : world) : world :=
  World (<[path := content]> (fs w)) (answers w) (asked w)
        (stdout w) (stderr w) (procs w).

(** [print(s)] *)
Definition print (s : string) : M unit := fun w => (Ret tt, out s w).

(** [print(s, file=sys.stderr)] *)
Definition eprint (s : string) : M unit := fun w => (Ret tt, err s w).

(** [input(prompt)]: shows the prompt and takes the operator's next line. *)
Definition input (prompt : string) : M string := fun w =>
  (Ret (answers w (asked w)), consumed (out prompt w)).

(** [os.path.exists(path)] *)
Definition path_exists (path : string) : M bool := fun w =>
  (Ret (bool_decide (is_Some (fs w !! path))), w).

(** [open(path)] and the iteration over its lines. *)
Definition read_lines (path : string) : M (list string) := fun w =>
  match fs w !! path with
  | Some content => (Ret (Py.file_lines content), w)
  | None => (Uncaught "FileNotFoundError", w)
  end.

(** [with open(path, "w") as fh: fh.write(content)] *)
Definition write_file (path content : string) : M unit := fun w =>
  (Ret tt, written path content w).

(** The world after the engine ran [cmd]. *)
Definition called (E : env) (cmd : list string) (w : world) : world :=
  World (snd (snakemake E cmd (fs w))) (answers w) (asked w)
        (stdout w) (stderr w) (procs w ++ [cmd]).

(** [subprocess.call(cmd)] *)
Definition subprocess_call (E : env) (cmd : list string) : M Z := fun w =>
  (Ret (fst (snakemake E cmd (fs w))), called E cmd w).

(** The status the process ends with. *)
Definition exit_status {A} (o : outcome A) : Z :=
  match o with
  | Ret _ => 0
  | Exit code => code
  | Uncaught _ => 1
  end.

Definition quote : string := String (ascii_of_nat 34) "".
Definition nl : string := String "010" "".

(** An optional string as a condition: [None] and [''] are false. *)
Definition truthy (o : option string) : bool :=
  match o with
  | Some s => negb (String.eqb s "")
  | None => false
  end.

(** An optional string inside an f-string. *)
Definition fmt (o : option string) : string :=
  match o with
  | Some s => s
  | None => "None"
  end.

Definition opt_value (o : option string) : value :=
  match o with
  | Some s => VStr s
  | None => VNone
  end.

(** ** The program *)

(** The text of [show_help], line by line (lines 9-70). *)
Definition help_lines : list string := [
  "hetcall - Run ANGSD→basecalls→ROH analysis via Snakemake";
  "";
  "USAGE:";
  "    hetcall [OPTIONS]";
  "";
  "REQUIRED ARGUMENTS:";
  "    -b, --bam FILE          BAM file for analysis (or use --bam)";
  "    -l, --bam-list FILE     File with BAM paths, one per line (or use --bam-list)";
  "    -o, --out-prefix STR    Output prefix for all files (ignored if using --bam-list)";
  "";
  "OPTIONAL ARGUMENTS:";
  "    -d, --outdir DIR        Output directory [default: results]";
  "    -s, --scripts DIR       Directory with required scripts [default: diversity]";
  "    -m, --min-depth INT     Minimum depth for ANGSD [default: 10]";
  "    -t, --threshold FLOAT   Het calling threshold (can be repeated) [default: 0.05]";
  "    -T, --threshold-list FILE  File with thresholds, one per line";
  "    -R, --roh-min FLOAT     ROH minimum threshold (can be repeated) [default: 0.2]";
  "    -L, --roh-list FILE     File with ROH thresholds, one per line";
  "    -c, --cores INT         Number of cores for Snakemake [default: 8]";
  "    ";
  "REGION SPECIFICATION (choose one):";
  "    -r, --regions STR       Region string for ANGSD -r (e.g., 'chr1:' or 'chr1:1-200000000')";
  "    -f, --rf FILE           Regions file for ANGSD -rf (one scaffold per line)";
  "";
  "WORKFLOW OPTIONS:";
  "    -S, --snakefile FILE    Snakefile path [default: Snakefile]";
  "    -C, --configfile FILE  Config file path [default: config.yaml in current dir]";
  "    -n, --dry-run          Show what would be done without executing";
  "    -u, --unlock           Unlock working directory";
  "    -F, --force            Overwrite existing config file";
  "    -h, --help             Show this help message";
  "";
  "EXAMPLES:";
  "    # Basic usage with single BAM";
  "    hetcall -b sample.bam -o sample01";
  "    ";
  "    # Multiple BAMs from list (runs sequentially)";
  "    hetcall -l bam_list.txt";
  "    ";
  "    # Multiple thresholds";
  "    hetcall -b sample.bam -o sample01 -t 0.05 -t 0.1 -t 0.15";
  "    ";
  "    # Thresholds from file";
  "    hetcall -b sample.bam -o sample01 -T thresholds.txt";
  "    ";
  "    # Multiple ROH thresholds";
  "    hetcall -b sample.bam -o sample01 -R 0.1 -R 0.2 -R 0.3";
  "    ";
  "    # Use specific chromosome region";
  ("    hetcall -b sample.bam -o sample01 -r " +:+ quote +:+ "chr1:1-50000000" +:+ quote);
  "    ";
  "    # Dry run with multiple BAMs";
  "    hetcall -l bam_list.txt -n";
  "";
  "BAM LIST FORMAT:";
  "    Each line: /path/to/file.bam [optional_prefix]";
  "    If no prefix provided, uses basename without .bam extension";
  "    ";
  "    Example bam_list.txt:";
  "    /data/sample1.bam sample1";
  "    /data/sample2.bam sample2  ";
  "    /data/sample3.bam" ].

Definition help_text : string := nl +:+ Py.join nl help_lines +:+ nl.

(** [show_help] (lines 6-72) *)
Definition show_help : M unit := print help_text.

(** One line of a list of type [bams] (lines 87-90); [None] stands for the
    [IndexError] of [parts[0]]. *)
Definition bam_item (line : string) : option item :=
  match Py.split line with
  | [] => None
  | bam_path :: rest =>
      let prefix :=
        match rest with
        | second :: _ => second
        | [] => fst (Py.splitext (Py.basename bam_path))
        end in
      Some (Pair bam_path prefix)
  end.

(** [line and not line.startswith('#')] (line 84) *)
Definition is_entry (line : string) : bool :=
  negb (String.eqb line "") && negb (Py.startswith "#" line).

(** One line of a list of values (lines 93-97). *)
Definition value_item (E : env) (filepath list_type : string)
    (line_num : nat) (line : string) : M item :=
  match float_of_str E line with
  | Some x => ret (Num x)
  | None =>
      do _ <- eprint ("Error: Invalid " +:+ list_type +:+ " value '" +:+ line
                      +:+ "' on line " +:+ Py.str (Z.of_nat line_num)
                      +:+ " in " +:+ filepath) ;;
      sys_exit 1
  end.

(** The loop over the lines of the file (lines 82-97); [line_num] is the
    number of the first line of [lines]. *)
Fixpoint read_loop (E : env) (filepath list_type : string) (line_num : nat)
    (lines : list string) (items : list item) : M (list item) :=
  match lines with
  | [] => ret items
  | line :: rest =>
      let line := Py.strip line in
      if is_entry line
      then
        do it <- (if String.eqb list_type "bams"
                  then match bam_item line with
                       | Some it => ret it
                       | None => raise "IndexError"
                       end
                  else value_item E filepath list_type line_num line) ;;
        read_loop E filepath list_type (S line_num) rest (items ++ [it])
      else read_loop E filepath list_type (S line_num) rest items
  end.

(** [read_file_list] (lines 74-103) *)
Definition read_file_list (E : env) (filepath list_type : string) : M (list item) :=
  do found <- path_exists filepath ;;
  if negb found
  then
    do _ <- eprint ("Error: " +:+ list_type +:+ " file " +:+ filepath +:+ " not found") ;;
    sys_exit 1
  else
    do lines <- read_lines filepath ;;
    do items <- read_loop E filepath list_type 1 lines [] ;;
    match items with
    | [] =>
        do _ <- eprint ("Error: No valid entries found in " +:+ filepath) ;;
        sys_exit 1
    | _ => ret items
    end.

(** The namespace [parse_args] returns, one field per declared option
    (lines 179-235). *)
Module Args.
Record t := Make {
  bam : option string;
  bam_list : option string;
  out_prefix : option string;
  outdir : string;
  scripts : string;
  min_depth : Z;
  cores : Z;
  threshold : list float;
  threshold_list : option string;
  roh_min : list float;
  roh_list : option string;
  regions : option string;
  rf : option string;
  snakefile : string;
  configfile : option string;
  dry_run : bool;
  unlock : bool;
  force : bool;
  help : bool;
}.
End Args.

Definition rule : string := Py.repeat_char "=" 60.

(** The path of the configuration file (line 117). *)
Definition cfg_path_of (args : Args.t) (prefix : option string) : string :=
  if truthy (Args.configfile args)
  then fmt (Args.configfile args)
  else "config_" +:+ fmt prefix +:+ ".yaml".

(** The configuration of one run (lines 112-114). *)
Definition run_cfg (bam_path prefix : option string) (base_cfg : config) : config :=
  dict_set "prefix" (opt_value prefix) (dict_set "bam" (opt_value bam_path) base_cfg).

(** The engine's command line (lines 134-147). *)
Definition build_cmd (args : Args.t) (cfg_path : string) : list string :=
  [ "snakemake";
    "-s"; Args.snakefile args;
    "--cores"; Py.str (Args.cores args);
    "--rerun-incomplete";
    "--printshellcmds";
    "--configfile"; cfg_path ]
  ++ (if Args.dry_run args then ["--dry-run"] else [])
  ++ (if Args.unlock args then ["--unlock"] else []).

(** [input(...).lower().strip()] is one of ['y', 'yes'] (lines 122-123). *)
Definition is_yes (line : string) : bool :=
  let response := Py.strip (Py.lower line) in
  String.eqb response "y" || String.eqb response "yes".

(** The overwrite guard (lines 120-125): [true] to go on, [false] to skip. *)
Definition confirm_overwrite (args : Args.t) (cfg_path : string) : M bool :=
  do found <- path_exists cfg_path ;;
  if found && negb (Args.force args)
  then
    do _ <- eprint ("Warning: Config file " +:+ cfg_path
                    +:+ " already exists. Use --force to overwrite.") ;;
    do line <- input "Continue anyway? [y/N]: " ;;
    if negb (is_yes line)
    then
      do _ <- print "Skipping this BAM." ;;
      ret false
    else ret true
  else ret true.

(** [run_single_bam] (lines 105-162) *)
Definition run_single_bam (E : env) (bam_path prefix : option string)
    (args : Args.t) (base_cfg : config) : M bool :=
  do _ <- print (nl +:+ rule) ;;
  do _ <- print ("Processing: " +:+ fmt bam_path +:+ " -> " +:+ fmt prefix) ;;
  do _ <- print rule ;;
  let cfg := run_cfg bam_path prefix base_cfg in
  let cfg_path := cfg_path_of args prefix in
  do go <- confirm_overwrite args cfg_path ;;
  if negb go then ret false
  else
    do _ <- write_file cfg_path (safe_dump E cfg) ;;
    do _ <- print ("Config written to: " +:+ cfg_path) ;;
    let cmd := build_cmd args cfg_path in
    do _ <- print ("Running: " +:+ Py.join " " cmd) ;;
    if Args.dry_run args
    then
      do _ <- print "(Dry run - no actual execution)" ;;
      ret true
    else
      do result <- subprocess_call E cmd ;;
      if negb (result =? 0)
      then
        do _ <- eprint ("Error: Snakemake failed for " +:+ fmt prefix
                        +:+ " (exit code " +:+ Py.str result +:+ ")") ;;
        ret false
      else
        do _ <- print ("Successfully completed: " +:+ fmt prefix) ;;
        ret true.

(** ** The command line *)

(** The options declared with [add_argument] (lines 179-235), by [dest]. *)
Inductive dest :=
| d_bam | d_bam_list | d_out_prefix
| d_outdir | d_scripts | d_min_depth | d_cores
| d_threshold | d_threshold_list | d_roh_min | d_roh_list
| d_regions | d_rf
| d_snakefile | d_configfile | d_dry_run | d_unlock | d_force | d_help.

#[global] Instance dest_eq_dec : EqDecision dest.
Proof. solve_decision. Defined.

(** The command line as [argparse] reads it: the occurrences of declared
    options in the order given, each with its argument string, or without
    one. *)
Inductive cli_opt :=
| Opt (d : dest) (arg : string)
| Flag (d : dest).

Definition dest_of (o : cli_opt) : dest :=
  match o with
  | Opt d _ => d
  | Flag d => d
  end.

(** What an option takes: a string, [type=int], [type=float], or nothing
    ([action="store_true"]). *)
Inductive kind := KStr | KInt | KFloat | KFlag.

Definition kind_of (d : dest) : kind :=
  match d with
  | d_min_depth | d_cores => KInt
  | d_threshold | d_roh_min => KFloat
  | d_dry_run | d_unlock | d_force | d_help => KFlag
  | _ => KStr
  end.

(** The name of an option in error messages. *)
Definition option_name (d : dest) : string :=
  match d with
  | d_bam => "-b/--bam"
  | d_bam_list => "-l/--bam-list"
  | d_out_prefix => "-o/--out-prefix"
  | d_outdir => "-d/--outdir"
  | d_scripts => "-s/--scripts"
  | d_min_depth => "-m/--min-depth"
  | d_cores => "-c/--cores"
  | d_threshold => "-t/--threshold"
  | d_threshold_list => "-T/--threshold-list"
  | d_roh_min => "-R/--roh-min"
  | d_roh_list => "-L/--roh-list"
  | d_regions => "-r/--regions"
  | d_rf => "-f/--rf"
  | d_snakefile => "-S/--snakefile"
  | d_configfile => "-C/--configfile"
  | d_dry_run => "-n/--dry-run"
  | d_unlock => "-u/--unlock"
  | d_force => "-F/--force"
  | d_help => "-h/--help"
  end.

(** The other members of the mutually exclusive group of an option
    (lines 178-182, 199-204, 207-212, 216-220). *)
Definition conflicts (d : dest) : list dest :=
  match d with
  | d_bam => [d_bam_list]
  | d_bam_list => [d_bam]
  | d_threshold => [d_threshold_list]
  | d_threshold_list => [d_threshold]
  | d_roh_min => [d_roh_list]
  | d_roh_list => [d_roh_min]
  | d_regions => [d_rf]
  | d_rf => [d_regions]
  | _ => []
  end.

(** An occurrence after the conversion of its argument. *)
Inductive parsed_opt :=
| Pstr (d : dest) (s : string)
| Pint (d : dest) (n : Z)
| Pfloat (d : dest) (x : float)
| Pflag (d : dest).

Definition convert (E : env) (o : cli_opt) : string + parsed_opt :=
  match o with
  | Opt d arg =>
      match kind_of d with
      | KStr => inr (Pstr d arg)
      | KInt =>
          match int_of_str E arg with
          | Some n => inr (Pint d n)
          | None => inl ("argument " +:+ option_name d
                         +:+ ": invalid int value: '" +:+ arg +:+ "'")
          end
      | KFloat =>
          match float_of_str E arg with
          | Some x => inr (Pfloat d x)
          | None => inl ("argument " +:+ option_name d
                         +:+ ": invalid float value: '" +:+ arg +:+ "'")
          end
      | KFlag => inl ("argument " +:+ option_name d
                      +:+ ": ignored explicit argument '" +:+ arg +:+ "'")
      end
  | Flag d =>
      match kind_of d with
      | KFlag => inr (Pflag d)
      | _ => inl ("argument " +:+ option_name d +:+ ": expected one argument")
      end
  end.

(** The parser's pass over the command line: each occurrence is converted,
    then refused if an option of its mutually exclusive group was seen
    before; [seen] are the options seen so far. The result is the first
    error or the converted occurrences. *)
Fixpoint parse_opts (E : env) (seen : list dest) (argv : list cli_opt)
    : string + list parsed_opt :=
  match argv with
  | [] => inr []
  | o :: rest =>
      match convert E o with
      | inl msg => inl msg
      | inr po =>
          match List.find (fun d => bool_decide (d ∈ seen)) (conflicts (dest_of o)) with
          | Some other =>
              inl ("argument " +:+ option_name (dest_of o)
                   +:+ ": not allowed with argument " +:+ option_name other)
          | None =>
              match parse_opts E (dest_of o :: seen) rest with
              | inl msg => inl msg
              | inr pos => inr (po :: pos)
              end
          end
      end
  end.

(** The value of an option stored with [action="store"]: the last one. *)
Definition stored_str (d : dest) (pos : list parsed_opt) : option string :=
  last (omap (fun po => match po with
                        | Pstr d' s => if bool_decide (d = d') then Some s else None
                        | _ => None
                        end) pos).

Definition stored_int (d : dest) (pos : list parsed_opt) : option Z :=
  last (omap (fun po => match po with
                        | Pint d' n => if bool_decide (d = d') then Some n else None
                        | _ => None
                        end) pos).

(** The values of an option with [action="append"], in order. *)
Definition appended (d : dest) (pos : list parsed_opt) : list float :=
  omap (fun po => match po with
                  | Pfloat d' x => if bool_decide (d = d') then Some x else None
                  | _ => None
                  end) pos.

(** Whether an option with [action="store_true"] was given. *)
Definition flagged (d : dest) (pos : list parsed_opt) : bool :=
  existsb (fun po => match po with
                     | Pflag d' => bool_decide (d = d')
                     | _ => false
                     end) pos.

Definition dest_of_parsed (po : parsed_opt) : dest :=
  match po with
  | Pstr d _ | Pint d _ | Pfloat d _ | Pflag d => d
  end.

(** The namespace with the declared defaults. *)
Definition namespace (pos : list parsed_opt) : Args.t :=
  {| Args.bam := stored_str d_bam pos;
     Args.bam_list := stored_str d_bam_list pos;
     Args.out_prefix := stored_str d_out_prefix pos;
     Args.outdir := default "results" (stored_str d_outdir pos);
     Args.scripts := default "diversity" (stored_str d_scripts pos);
     Args.min_depth := default 10 (stored_int d_min_depth pos);
     Args.cores := default 8 (stored_int d_cores pos);
     Args.threshold := appended d_threshold pos;
     Args.threshold_list := stored_str d_threshold_list pos;
     Args.roh_min := appended d_roh_min pos;
     Args.roh_list := stored_str d_roh_list pos;
     Args.regions := stored_str d_regions pos;
     Args.rf := stored_str d_rf pos;
     Args.snakefile := default "Snakefile" (stored_str d_snakefile pos);
     Args.configfile := stored_str d_configfile pos;
     Args.dry_run := flagged d_dry_run pos;
     Args.unlock := flagged d_unlock pos;
     Args.force := flagged d_force pos;
     Args.help := flagged d_help pos |}.

(** [parser.error(msg)]: the message goes to standard error, after the
    usage line, and the process ends with status 2. *)
Definition parser_error {A} (msg : string) : M A :=
  do _ <- eprint ("hetcall: error: " +:+ msg) ;;
  sys_exit 2.

(** [p.parse_args()] (line 237) for the parser built in lines 170-235. *)
Definition parse_args (E : env) (argv : list cli_opt) : M Args.t :=
  match parse_opts E [] argv with
  | inl msg => parser_error msg
  | inr pos =>
      if existsb (fun po => bool_decide (dest_of_parsed po ∈ [d_bam; d_bam_list])) pos
      then ret (namespace pos)
      else parser_error "one of the arguments -b/--bam -l/--bam-list is required"
  end.

(** ** The main program *)

(** The literals [0.05] and [0.2] as the binary64 numbers Python reads. *)
Definition default_threshold : float := 0x1.999999999999ap-5%float.
Definition default_roh_min : float := 0x1.999999999999ap-3%float.

(** The het-calling thresholds (lines 250-255). *)
Definition resolve_thresholds (E : env) (args : Args.t) : M (list item) :=
  if truthy (Args.threshold_list args)
  then read_file_list E (fmt (Args.threshold_list args)) "thresholds"
  else
    match Args.threshold args with
    | _ :: _ => ret (map Num (Args.threshold args))
    | [] => ret [Num default_threshold]
    end.

(** The ROH thresholds (lines 258-263). *)
Definition resolve_roh_mins (E : env) (args : Args.t) : M (list item) :=
  if truthy (Args.roh_list args)
  then read_file_list E (fmt (Args.roh_list args)) "ROH thresholds"
  else
    match Args.roh_min args with
    | _ :: _ => ret (map Num (Args.roh_min args))
    | [] => ret [Num default_roh_min]
    end.

(** [roh_mins[0] if len(roh_mins) == 1 else roh_mins] (line 273) *)
Definition roh_value (roh_mins : list item) : value :=
  match roh_mins with
  | [single] => VItem single
  | _ => VList roh_mins
  end.

(** The base configuration (lines 266-275). *)
Definition base_cfg (args : Args.t) (thresholds roh_mins : list item) : config :=
  [ ("rf", opt_value (Args.rf args));
    ("regions", opt_value (Args.regions args));
    ("scripts", VStr (Args.scripts args));
    ("outdir", VStr (Args.outdir args));
    ("min_depth", VInt (Args.min_depth args));
    ("thresholds", VList thresholds);
    ("roh_min", roh_value roh_mins);
    ("angsd_threads", VInt (Z.max 1 (Z.min (Args.cores args) 64))) ].

(** The loop over the BAM list (lines 283-285). *)
Fixpoint batch_loop (E : env) (args : Args.t) (cfg : config)
    (bam_list : list item) (success_count : nat) : M nat :=
  match bam_list with
  | [] => ret success_count
  | Pair bam_path prefix :: rest =>
      do ok <- run_single_bam E (Some bam_path) (Some prefix) args cfg ;;
      batch_loop E args cfg rest (if ok then S success_count else success_count)
  | Num _ :: _ => raise "TypeError"
  end.

(** The branch for a BAM list (lines 279-290). *)
Definition run_bam_list (E : env) (args : Args.t) (cfg : config) : M unit :=
  do bam_list <- read_file_list E (fmt (Args.bam_list args)) "bams" ;;
  do _ <- print ("Found " +:+ Py.str (Z.of_nat (length bam_list))
                 +:+ " BAM files to process") ;;
  do success_count <- batch_loop E args cfg bam_list 0%nat ;;
  do _ <- print (nl +:+ rule) ;;
  do _ <- print ("Completed " +:+ Py.str (Z.of_nat success_count) +:+ "/"
                 +:+ Py.str (Z.of_nat (length bam_list))
                 +:+ " BAM files successfully") ;;
  if (success_count <? length bam_list)%nat then sys_exit 1 else ret tt.

(** The branch for a single BAM (lines 294-296). *)
Definition run_one_bam (E : env) (args : Args.t) (cfg : config) : M unit :=
  do success <- run_single_bam E (Args.bam args) (Args.out_prefix args) args cfg ;;
  if negb success then sys_exit 1 else ret tt.

(** [main] from the parsed arguments on (lines 240-296). *)
Definition main_with (E : env) (args : Args.t) : M unit :=
  if Args.help args
  then
    do _ <- show_help ;;
    sys_exit 0
  else if truthy (Args.bam args) && negb (truthy (Args.out_prefix args))
  then
    do _ <- eprint "Error: --out-prefix is required when using --bam" ;;
    sys_exit 1
  else
    do thresholds <- resolve_thresholds E args ;;
    do roh_mins <- resolve_roh_mins E args ;;
    let cfg := base_cfg args thresholds roh_mins in
    if truthy (Args.bam_list args)
    then run_bam_list E args cfg
    else run_one_bam E args cfg.

(** [main] (lines 164-296) *)
Definition main (E : env) (argv : list cli_opt) : M unit :=
  match argv with
  | [] | [Flag d_help] =>
      do _ <- show_help ;;
      sys_exit 0
  | _ =>
      do args <- parse_args E argv ;;
      main_with E args
  end.

(** The status of the process that runs [main] on [argv] in the world [w]. *)
Definition run_status (E : env) (argv : list cli_opt) (w : world) : Z :=
  exit_status (fst (main E argv w)).

(** ** Notions the properties are stated with *)

(** The run that would write [cfg_path] stops at the overwrite guard of
    lines 120-125: the file exists, [--force] is absent and the operator's
    next answer is not a yes. *)
Definition skips (args : Args.t) (cfg_path : string) (w : world) : bool :=
  bool_decide (is_Some (fs w !! cfg_path))
  && negb (Args.force args)
  && negb (is_yes (answers w (asked w))).

(** The lines of a file with their numbers from [n] on, stripped. *)
Fixpoint numbered (n : nat) (lines : list string) : list (nat * string) :=
  match lines with
  | [] => []
  | line :: rest => (n, Py.strip line) :: numbered (S n) rest
  end.

(** The non-blank, non-comment lines of a file, with their 1-based numbers. *)
Definition entries (content : string) : list (nat * string) :=
  List.filter (fun e => is_entry (snd e)) (numbered 1 (Py.file_lines content)).

(** What a non-blank, non-comment line stands for in a list of the type. *)
Definition item_of (E : env) (list_type line : string) : option item :=
  if String.eqb list_type "bams" then bam_item line
  else Num <$> float_of_str E line.

(** A numbered line that stands for nothing in a list of the type. *)
Definition unreadable (E : env) (list_type : string) (e : nat * string) : bool :=
  match item_of E list_type (snd e) with
  | Some _ => false
  | None => true
  end.


(** The results of the runs of a batch, in order. *)
Fixpoint batch_results (E : env) (args : Args.t) (cfg : config)
    (bam_list : list (string * string)) (w : world) : list bool :=
  match bam_list with
  | [] => []
  | (bam_path, prefix) :: rest =>
      match run_single_bam E (Some bam_path) (Some prefix) args cfg w with
      | (Ret ok, w') => ok :: batch_results E args cfg rest w'
      | _ => []
      end
  end.

(** How many runs of a batch succeeded. *)
Definition succeeded (results : list bool) : nat :=
  length (List.filter (fun ok : bool => ok) results).

(** The lines on standard output that open a run (line 108). *)
Definition attempts (output : list string) : list string :=
  List.filter (Py.startswith "Processing: ") output.

Definition attempt_line (e : string * string) : string :=
  "Processing: " +:+ fst e +:+ " -> " +:+ snd e.

Definition pair_item (e : string * string) : item := Pair (fst e) (snd e).

(** ** A sample environment *)

(** [float] on the numerals used below; every other string is refused. *)
Definition sample_float (s : string) : option float :=
  if String.eqb s "0.05" then Some default_threshold
  else if String.eqb s "0.1" then Some 0x1.999999999999ap-4%float
  else if String.eqb s "0.2" then Some default_roh_min
  else None.

(** [int] on plain decimal numerals. *)
Definition sample_int (s : string) : option Z :=
  if String.eqb s "" || String.eqb s "-" then None
  else Z.of_int <$> NilZero.int_of_string s.

Definition show_item (i : item) : string :=
  match i with
  | Num x =>
      if PrimFloat.eqb x default_threshold then "0.05"
      else if PrimFloat.eqb x 0x1.999999999999ap-4%float then "0.1"
      else if PrimFloat.eqb x default_roh_min then "0.2"
      else "?"
  | Pair a b => "[" +:+ a +:+ ", " +:+ b +:+ "]"
  end.

Definition show_value (v : value) : string :=
  match v with
  | VNone => " null"
  | VStr s => " " +:+ s
  | VInt n => " " +:+ Py.str n
  | VItem i => " " +:+ show_item i
  | VList l => String.concat "" (map (fun i => nl +:+ "- " +:+ show_item i) l)
  end.

(** A serializer in the block style of YAML, one key per line. *)
Definition sample_dump (cfg : config) : string :=
  String.concat "" (map (fun kv => fst kv +:+ ":" +:+ show_value (snd kv) +:+ nl) cfg).

(** An engine that fails on the sample called [bad] and leaves the files
    as they are. *)
Definition sample_snakemake (cmd : list string) (files : gmap string string)
    : Z * gmap string string :=
  (if bool_decide ("config_bad.yaml" ∈ cmd) then 1 else 0, files).

Definition sample_env : env :=
  Env sample_float sample_int sample_dump sample_snakemake.

(** A world with the given files where the operator gives the same answer
    to every prompt. *)
Definition sample_world (files : list (string * string)) (answer : string) : world :=
  World (list_to_map files) (fun _ => answer) 0 [] [] [].

(** Strings of white space only, strings without white space, and the
    occurrence of a character. *)
Fixpoint all_space (s : string) : bool :=
  match s with
  | EmptyString => true
  | String c s' => Py.isspace c && all_space s'
  end.

Fixpoint no_space (s : string) : bool :=
  match s with
  | EmptyString => true
  | String c s' => negb (Py.isspace c) && no_space s'
  end.

Fixpoint occurs (c : ascii) (s : string) : bool :=
  match s with
  | EmptyString => false
  | String d s' => Ascii.eqb c d || occurs c s'
  end.

(** ** Sample command lines and worlds *)


(** [hetcall -b x.bam -o s -r chr1: -f scaffolds.txt] *)
Definition argv_two_regions : list cli_opt :=
  [Opt d_bam "x.bam"; Opt d_out_prefix "s";
   Opt d_regions "chr1:"; Opt d_rf "scaffolds.txt"].

(** [hetcall -l list.txt] and [hetcall -l list.txt -n] *)
Definition argv_list : list cli_opt := [Opt d_bam_list "list.txt"].

(** An empty directory. *)
Definition world_fresh : world := sample_world [] "n".

(** A directory where [config_s.yaml] is left from an earlier run, with a
    list of the one sample [s], and an operator who answers no. *)
Definition world_existing : world :=
  sample_world [("list.txt", "x.bam s" +:+ nl); ("config_s.yaml", "old" +:+ nl)] "n".

(** A directory with a list of the one sample [bad], on which the sample
    engine fails. *)
Definition world_bad : world :=
  sample_world [("list.txt", "bad.bam" +:+ nl)] "n".

(** A directory with a list of thresholds whose third line is not a
    number, and the arguments of [hetcall -b x.bam -o s -T t.txt]. *)
Definition world_thresholds : world :=
  sample_world [("t.txt", "0.05" +:+ nl +:+ "# more" +:+ nl +:+ "0,1" +:+ nl)] "n".

Definition args_threshold_list : Args.t :=
  namespace [Pstr d_bam "x.bam"; Pstr d_out_prefix "s"; Pstr d_threshold_list "t.txt"].

(** A directory with the list of the specification's scenario, and the
    arguments of [hetcall -l list.txt]. *)
Definition world_three_lines : world :=
  sample_world [("list.txt", "a.bam sampleA" +:+ nl +:+ "b.bam" +:+ nl
                             +:+ "#c.bam ignored" +:+ nl)] "n".

Definition args_list : Args.t := namespace [Pstr d_bam_list "list.txt"].


(** ** Notions for the command line *)

(** The arguments given to the option [d] on the command line, in order. *)
Definition given (d : dest) (argv : list cli_opt) : list string :=
  omap (fun o => match o with
                 | Opt d' arg => if bool_decide (d = d') then Some arg else None
                 | Flag _ => None
                 end) argv.

(** Whether the flag [d] is given on the command line. *)
Definition flag_given (d : dest) (argv : list cli_opt) : bool :=
  existsb (fun o => match o with
                    | Flag d' => bool_decide (d = d')
                    | Opt _ _ => false
                    end) argv.

(** Whether the command line is one the parser accepts. *)
Definition accepted (E : env) (argv : list cli_opt) : Prop :=
  exists pos,
    parse_opts E [] argv = inr pos
    /\ existsb (fun po => bool_decide (dest_of_parsed po ∈ [d_bam; d_bam_list])) pos = true.

(** The arguments with another output prefix. *)
Definition with_out_prefix (out_prefix : option string) (args : Args.t) : Args.t :=
  {| Args.bam := Args.bam args;
     Args.bam_list := Args.bam_list args;
     Args.out_prefix := out_prefix;
     Args.outdir := Args.outdir args;
     Args.scripts := Args.scripts args;
     Args.min_depth := Args.min_depth args;
     Args.cores := Args.cores args;
     Args.threshold := Args.threshold args;
     Args.threshold_list := Args.threshold_list args;
     Args.roh_min := Args.roh_min args;
     Args.roh_list := Args.roh_list args;
     Args.regions := Args.regions args;
     Args.rf := Args.rf args;
     Args.snakefile := Args.snakefile args;
     Args.configfile := Args.configfile args;
     Args.dry_run := Args.dry_run args;
     Args.unlock := Args.unlock args;
     Args.force := Args.force args;
     Args.help := Args.help args |}.

(** ** More sample command lines and worlds *)

(** [hetcall -b x.bam -o s -t 0.05 -T t.txt] *)
Definition argv_two_thresholds : list cli_opt :=
  [Opt d_bam "x.bam"; Opt d_out_prefix "s";
   Opt d_threshold "0.05"; Opt d_threshold_list "t.txt"].

(** [hetcall -b x.bam -o s -c 4 -c 200 -t 0.05 -t 0.1 -n] *)
Definition argv_repeated : list cli_opt :=
  [Opt d_bam "x.bam"; Opt d_out_prefix "s"; Opt d_cores "4"; Opt d_cores "200";
   Opt d_threshold "0.05"; Opt d_threshold "0.1"; Flag d_dry_run].


(** The arguments of [hetcall -l list.txt -C cfg.yaml -n], and the world
    after its dry run of a first sample in an empty directory. *)
Definition args_shared_config : Args.t :=
  namespace [Pstr d_bam_list "list.txt"; Pstr d_configfile "cfg.yaml"; Pflag d_dry_run].

Definition world_after_first : world :=
  snd (run_single_bam sample_env (Some "a.bam") (Some "a") args_shared_config []
         world_fresh).

(** * Properties *)

(** ** Strings *)

#[local] Arguments Ascii.eqb : simpl never.
#[local] Arguments Py.isspace : simpl never.

Section Strings.

Implicit Types (s t cur : string) (c : ascii).

Lemma sapp_nil_l s : "" +:+ s = s.
Proof. reflexivity. Qed.

Lemma sapp_cons c s t : String c s +:+ t = String c (s +:+ t).
Proof. reflexivity. Qed.

Lemma sapp_nil_r s : s +:+ "" = s.
Proof. induction s as [|c s IH]; [reflexivity | now rewrite sapp_cons, IH]. Qed.

Lemma sapp_assoc s t u : (s +:+ t) +:+ u = s +:+ (t +:+ u).
Proof. induction s as [|c s IH]; [reflexivity | now rewrite !sapp_cons, IH]. Qed.

Lemma sapp_snoc s c t : (s +:+ String c "") +:+ t = s +:+ String c t.
Proof. now rewrite sapp_assoc, sapp_cons, sapp_nil_l. Qed.

Lemma sapp_eq_nil s t : s +:+ t = "" -> s = "" /\ t = "".
Proof. destruct s; [intuition | rewrite sapp_cons; discriminate]. Qed.

(** White space before the first word does not count. *)
Lemma split_from_spaces ws s :
  all_space ws = true -> Py.split_from "" (ws +:+ s) = Py.split_from "" s.
Proof.
  induction ws as [|c ws IH]; [reflexivity|]. rewrite sapp_cons. simpl.
  intros [Hc Hws]%andb_true_iff. rewrite Hc. now apply IH.
Qed.

(** A word is read whole. *)
Lemma split_from_word cur p s :
  no_space p = true -> Py.split_from cur (p +:+ s) = Py.split_from (cur +:+ p) s.
Proof.
  revert cur. induction p as [|c p IH]; intros cur.
  - now rewrite sapp_nil_r.
  - rewrite sapp_cons. simpl. intros [Hc Hp]%andb_true_iff. apply negb_true_iff in Hc. rewrite Hc.
    rewrite IH by assumption. now rewrite sapp_snoc.
Qed.

(** White space after the last word does not count. *)
Lemma split_from_tail cur ws :
  all_space ws = true ->
  Py.split_from cur ws = if String.eqb cur "" then [] else [cur].
Proof.
  revert cur. induction ws as [|c ws IH]; simpl; intros cur; [reflexivity|].
  intros [Hc Hws]%andb_true_iff. rewrite Hc.
  rewrite (IH "" Hws). simpl. reflexivity.
Qed.

Lemma split_lstrip s : Py.split (Py.lstrip s) = Py.split s.
Proof.
  unfold Py.split. induction s as [|c s IH]; simpl; [reflexivity|].
  destruct (Py.isspace c) eqn:Hc; simpl; [assumption | now rewrite Hc].
Qed.

Lemma split_from_rstrip cur s :
  Py.split_from cur (Py.rstrip s) = Py.split_from cur s.
Proof.
  revert cur. induction s as [|c s IH]; intros cur; [reflexivity|].
  simpl. destruct (Py.rstrip s) as [|d r] eqn:Hr.
  - destruct (Py.isspace c) eqn:Hc; simpl.
    + rewrite <- (IH ""). simpl. now destruct (String.eqb cur "").
    + rewrite Hc. now rewrite <- IH.
  - simpl. destruct (Py.isspace c).
    + rewrite <- (IH ""). reflexivity.
    + now rewrite <- IH.
Qed.

(** Stripping a line does not change its words. *)
Lemma split_strip s : Py.split (Py.strip s) = Py.split s.
Proof.
  unfold Py.strip, Py.split at 1. rewrite split_from_rstrip.
  apply split_lstrip.
Qed.

Lemma lstrip_spaces ws s : all_space ws = true -> Py.lstrip (ws +:+ s) = Py.lstrip s.
Proof.
  induction ws as [|c ws IH]; [reflexivity|]. rewrite sapp_cons. simpl.
  intros [Hc Hws]%andb_true_iff. rewrite Hc. now apply IH.
Qed.

Lemma rstrip_head c s :
  Py.isspace c = false -> exists r, Py.rstrip (String c s) = String c r.
Proof.
  intros Hc. simpl. destruct (Py.rstrip s); rewrite ?Hc; eauto.
Qed.

(** A line whose first word starts with [c] strips to a string that starts
    with [c]. *)
Lemma strip_head ws c s :
  all_space ws = true -> Py.isspace c = false ->
  exists r, Py.strip (ws +:+ String c s) = String c r.
Proof.
  intros Hws Hc. unfold Py.strip. rewrite lstrip_spaces by assumption.
  simpl. rewrite Hc. now apply rstrip_head.
Qed.

Lemma is_entry_head c r :
  Ascii.eqb c "#" = false -> is_entry (String c r) = true.
Proof.
  intros Hc. unfold is_entry. simpl.
  now rewrite Ascii.eqb_sym, Hc.
Qed.

End Strings.

(** ** Paths *)

Section Paths.

Implicit Types (s t p : string) (c : ascii).

Lemma take_drop n s : Py.take n s +:+ Py.drop n s = s.
Proof.
  revert s. induction n as [|n IH]; intros [|c s]; try reflexivity.
  simpl. rewrite sapp_cons. now rewrite IH.
Qed.

Lemma take_succ n s c t :
  Py.drop n s = String c t -> Py.take (S n) s = Py.take n s +:+ String c "".
Proof.
  revert s. induction n as [|n IH]; intros [|d s]; simpl; try discriminate.
  - now intros [= -> ->].
  - intros H. rewrite sapp_cons. f_equal. now apply IH.
Qed.

(** [rfind] finds the last occurrence, and fails only when there is none. *)
Lemma rfind_from_spec c i s :
  0 <= i ->
  let r := Py.rfind_from c i s in
  (r = -1 /\ occurs c s = false)
  \/ (i <= r < i + Z.of_nat (String.length s)
      /\ Py.drop (Z.to_nat (r - i)) s = String c (Py.drop (S (Z.to_nat (r - i))) s)
      /\ occurs c (Py.drop (S (Z.to_nat (r - i))) s) = false).
Proof.
  revert i. induction s as [|d s IH]; intros i Hi; [left; split; reflexivity|].
  cbn [Py.rfind_from]. cbv zeta.
  destruct (IH (i + 1) ltac:(lia)) as [[Hr Hocc]|(Hrange & Hdrop & Hocc)].
  - rewrite Hr. change (0 <=? -1) with false. cbv iota.
    destruct (Ascii.eqb_spec c d) as [<-|Hne].
    + right. rewrite Z.sub_diag. change (Z.to_nat 0) with 0%nat.
      cbn [Py.drop String.length]. repeat split; try lia. assumption.
    + left. split; [reflexivity|]. simpl.
      destruct (Ascii.eqb_spec c d); [contradiction | assumption].
  - set (r := Py.rfind_from c (i + 1) s) in *.
    destruct (Z.leb_spec 0 r); [|lia].
    right. replace (Z.to_nat (r - i)) with (S (Z.to_nat (r - (i + 1)))) by lia.
    cbn [String.length Py.drop]. repeat split; try lia; assumption.
Qed.

(** The base name is what follows the last slash. *)
Lemma basename_spec p :
  exists dir,
    p = dir +:+ Py.basename p
    /\ occurs "/" (Py.basename p) = false
    /\ (dir = "" \/ exists d, dir = d +:+ "/").
Proof.
  unfold Py.basename, Py.rfind.
  destruct (rfind_from_spec "/" 0 p ltac:(lia)) as [[Hr Hocc]|(Hrange & Hdrop & Hocc)].
  - rewrite Hr. exists "". simpl. auto.
  - set (r := Py.rfind_from "/" 0 p) in *.
    replace (r - 0) with r in * by lia.
    replace (Z.to_nat (r + 1)) with (S (Z.to_nat r)) by lia.
    exists (Py.take (S (Z.to_nat r)) p). split; [now rewrite take_drop|].
    split; [assumption|]. right. exists (Py.take (Z.to_nat r) p).
    now apply take_succ with (t := Py.drop (S (Z.to_nat r)) p).
Qed.

(** The extension is empty or runs from the last dot to the end. *)
Lemma splitext_spec p :
  p = fst (Py.splitext p) +:+ snd (Py.splitext p)
  /\ (snd (Py.splitext p) = ""
      \/ exists e, snd (Py.splitext p) = String "." e /\ occurs "." e = false).
Proof.
  unfold Py.splitext, Py.rfind.
  destruct (rfind_from_spec "/" 0 p ltac:(lia)) as [[Hs _]|(Hs & _)];
  destruct (rfind_from_spec "." 0 p ltac:(lia)) as [[Hd _]|(Hd & Hdrop & Hocc)];
  set (sep := Py.rfind_from "/" 0 p) in *;
  set (dot := Py.rfind_from "." 0 p) in *;
  match goal with
  | |- context [if ?b then _ else _] => destruct b eqn:Hb
  end; simpl; rewrite ?sapp_nil_r; auto;
  try (apply andb_true_iff in Hb as [Hlt%Z.ltb_lt _]; lia).
  all: replace (dot - 0) with dot in * by lia.
  all: split; [now rewrite take_drop | right; eauto].
Qed.

End Paths.

(** ** One run *)

#[local] Arguments is_yes : simpl never.
#[local] Arguments build_cmd : simpl never.
#[local] Arguments cfg_path_of : simpl never.
#[local] Arguments run_cfg : simpl never.
#[local] Arguments Py.join : simpl never.
#[local] Arguments Py.str : simpl never.
#[local] Arguments rule : simpl never.
#[local] Arguments String.append : simpl never.

Ltac unfold_run :=
  unfold run_single_bam, confirm_overwrite, bind, print, eprint, input,
    path_exists, write_file, subprocess_call, ret, sys_exit; simpl.

Section Run.

Context (E : env).
Implicit Types (args : Args.t) (w : world) (cfg : config).

(** A run that stops at the overwrite guard. *)
Lemma run_skipped bam_path prefix args cfg w :
  skips args (cfg_path_of args prefix) w = true ->
  exists w',
    run_single_bam E bam_path prefix args cfg w = (Ret false, w')
    /\ fs w' = fs w /\ procs w' = procs w
    /\ answers w' = answers w /\ asked w' = S (asked w)
    /\ stdout w' = stdout w ++ [nl +:+ rule; attempt_line (fmt bam_path, fmt prefix);
                                rule; "Continue anyway? [y/N]: "; "Skipping this BAM."]
    /\ stderr w' = stderr w ++ ["Warning: Config file " +:+ cfg_path_of args prefix
                                +:+ " already exists. Use --force to overwrite."].
Proof.
  unfold skips. intros [[Hex Hforce]%andb_true_iff Hno]%andb_true_iff.
  unfold_run. rewrite Hex, Hforce. simpl. rewrite Hno. simpl.
  eexists. split; [reflexivity|]. simpl.
  repeat split; now rewrite <- ?app_assoc.
Qed.

(** The world in which the engine is started, or would be: the three
    opening lines, for an existing file the warning and the prompt, then
    the written configuration and the two lines that announce it. *)
Lemma run_proceeds bam_path prefix args cfg w :
  skips args (cfg_path_of args prefix) w = false ->
  let p := cfg_path_of args prefix in
  let cmd := build_cmd args p in
  exists w1,
    fs w1 = <[p := safe_dump E (run_cfg bam_path prefix cfg)]> (fs w)
    /\ procs w1 = procs w /\ answers w1 = answers w
    /\ attempts (stdout w1) = attempts (stdout w) ++ [attempt_line (fmt bam_path, fmt prefix)]
    /\ run_single_bam E bam_path prefix args cfg w =
       if Args.dry_run args
       then (Ret true, out "(Dry run - no actual execution)" w1)
       else if negb (fst (snakemake E cmd (fs w1)) =? 0)
       then (Ret false,
             err ("Error: Snakemake failed for " +:+ fmt prefix +:+ " (exit code "
                  +:+ Py.str (fst (snakemake E cmd (fs w1))) +:+ ")")
                 (called E cmd w1))
       else (Ret true, out ("Successfully completed: " +:+ fmt prefix) (called E cmd w1)).
Proof.
  intros Hgo p cmd. unfold skips in Hgo. fold p in Hgo.
  unfold_run. fold p. fold cmd.
  destruct (bool_decide (is_Some (fs w !! p)) && negb (Args.force args)) eqn:Hguard.
  - simpl in Hgo. simpl. rewrite Hgo. simpl.
    match goal with
    | |- context [ (if Args.dry_run args then _ else _) ?W ] => exists W
    end.
    repeat split; simpl; try reflexivity.
    + unfold attempts. rewrite !List.filter_app. simpl. now rewrite !app_nil_r.
    + destruct (Args.dry_run args); [reflexivity|].
      now destruct (negb (_ =? 0)).
  - simpl.
    match goal with
    | |- context [ (if Args.dry_run args then _ else _) ?W ] => exists W
    end.
    repeat split; simpl; try reflexivity.
    + unfold attempts. rewrite !List.filter_app. simpl. now rewrite !app_nil_r.
    + destruct (Args.dry_run args); [reflexivity|].
      now destruct (negb (_ =? 0)).
Qed.

(** A run always returns, and opens with its line on standard output. *)
Lemma run_returns bam_path prefix args cfg w :
  exists ok w',
    run_single_bam E bam_path prefix args cfg w = (Ret ok, w')
    /\ answers w' = answers w
    /\ attempts (stdout w') = attempts (stdout w) ++ [attempt_line (fmt bam_path, fmt prefix)].
Proof.
  destruct (skips args (cfg_path_of args prefix) w) eqn:Hskip.
  - destruct (run_skipped bam_path prefix args cfg w Hskip)
      as (w' & Hrun & _ & _ & Hans & _ & Hout & _).
    exists false, w'. repeat split; try assumption.
    rewrite Hout. unfold attempts. rewrite List.filter_app. reflexivity.
  - destruct (run_proceeds bam_path prefix args cfg w Hskip)
      as (w1 & _ & _ & Hans & Hout & Hrun).
    rewrite Hrun.
    destruct (Args.dry_run args);
      [|destruct (negb (fst (snakemake E _ (fs w1)) =? 0))];
      eexists; eexists; (split; [reflexivity|]); simpl; (split; [assumption|]);
      try assumption.
    all: unfold attempts in *; rewrite List.filter_app; simpl;
      rewrite app_nil_r; assumption.
Qed.

End Run.

(** ** List files *)

Section Lists.

Context (E : env).
Implicit Types (w : world) (s line : string) (items : list item).

Lemma split_from_cur cur s : cur <> "" -> Py.split_from cur s <> [].
Proof.
  revert cur. induction s as [|c s IH]; intros cur Hne; simpl.
  - destruct (String.eqb_spec cur ""); [contradiction | discriminate].
  - destruct (Py.isspace c).
    + destruct (String.eqb_spec cur ""); [contradiction | discriminate].
    + apply IH. intros H. apply sapp_eq_nil in H. tauto.
Qed.

Lemma lstrip_head s c r : Py.lstrip s = String c r -> Py.isspace c = false.
Proof.
  induction s as [|d s IH]; simpl; [discriminate|].
  destruct (Py.isspace d) eqn:Hd; [assumption|]. now intros [= <- _].
Qed.

Lemma rstrip_keeps_head c s d r :
  Py.rstrip (String c s) = String d r -> d = c.
Proof.
  simpl. destruct (Py.rstrip s); [destruct (Py.isspace c)|]; congruence.
Qed.

Lemma strip_head_nonspace line c r :
  Py.strip line = String c r -> Py.isspace c = false.
Proof.
  unfold Py.strip. destruct (Py.lstrip line) as [|d t] eqn:Hl; [discriminate|].
  intros H. apply rstrip_keeps_head in H as ->. now apply lstrip_head in Hl.
Qed.

(** A stripped line that is not blank has a first word: [parts[0]] is safe. *)
Lemma bam_item_entry line :
  is_entry (Py.strip line) = true -> is_Some (bam_item (Py.strip line)).
Proof.
  unfold is_entry, bam_item. intros [Hne _]%andb_true_iff.
  destruct (Py.strip line) as [|c r] eqn:Hs; [discriminate|].
  pose proof (strip_head_nonspace _ _ _ Hs) as Hc.
  unfold Py.split. simpl. rewrite Hc.
  destruct (Py.split_from _ r) eqn:Hsp; [|eauto].
  exfalso. revert Hsp. now apply split_from_cur.
Qed.

Lemma numbered_strip n lines e :
  In e (numbered n lines) -> exists line, snd e = Py.strip line.
Proof.
  revert n. induction lines as [|l lines IH]; intros n; simpl; [tauto|].
  intros [<-|H]; [eauto | eapply IH, H].
Qed.

(** One turn of the loop on a non-blank, non-comment line. *)
Lemma read_line_spec fp lt n line (k : item -> M (list item)) w :
  bind (if String.eqb lt "bams"
        then match bam_item line with
             | Some it => ret it
             | None => raise "IndexError"
             end
        else value_item E fp lt n line) k w =
  match item_of E lt line with
  | Some it => k it w
  | None =>
      if String.eqb lt "bams" then (Uncaught "IndexError", w)
      else (Exit 1, err ("Error: Invalid " +:+ lt +:+ " value '" +:+ line
                         +:+ "' on line " +:+ Py.str (Z.of_nat n)
                         +:+ " in " +:+ fp) w)
  end.
Proof.
  unfold item_of, bind, value_item.
  destruct (String.eqb lt "bams").
  - now destruct (bam_item line).
  - now destruct (float_of_str E line).
Qed.

(** The loop returns the items of the non-blank, non-comment lines, in
    order, unless one of them is unreadable: then it stops at the first. *)
Lemma read_loop_spec fp lt n lines items w :
  read_loop E fp lt n lines items w =
  let es := List.filter (fun e => is_entry (snd e)) (numbered n lines) in
  match List.find (unreadable E lt) es with
  | Some (k, text) =>
      if String.eqb lt "bams" then (Uncaught "IndexError", w)
      else (Exit 1, err ("Error: Invalid " +:+ lt +:+ " value '" +:+ text
                         +:+ "' on line " +:+ Py.str (Z.of_nat k)
                         +:+ " in " +:+ fp) w)
  | None => (Ret (items ++ omap (fun e => item_of E lt (snd e)) es), w)
  end.
Proof.
  revert n items w. induction lines as [|l lines IH]; intros n items w.
  - simpl. now rewrite app_nil_r.
  - cbn [read_loop numbered List.filter snd]. cbv zeta.
    destruct (is_entry (Py.strip l)) eqn:Hl; [|apply IH].
    rewrite read_line_spec.
    cbn [List.find omap]. unfold unreadable at 1. cbn [snd].
    destruct (item_of E lt (Py.strip l)) as [it|] eqn:Hit; [|reflexivity].
    rewrite IH. cbv zeta.
    destruct (List.find _ _) as [[k text]|]; [reflexivity|].
    rewrite <- app_assoc. simpl. now rewrite Hit.
Qed.

Lemma find_none_omap {A B} (f : A -> option B) (l : list A) :
  List.find (fun a => match f a with Some _ => false | None => true end) l = None ->
  map f l = map Some (omap f l).
Proof.
  induction l as [|a l IH]; simpl; [reflexivity|].
  destruct (f a) eqn:Hf; [|discriminate].
  intros H. simpl. now rewrite IH.
Qed.

(** In a list of type [bams] every entry is readable. *)
Lemma bams_readable n lines :
  List.find (unreadable E "bams")
    (List.filter (fun e => is_entry (snd e)) (numbered n lines)) = None.
Proof.
  destruct (List.find _ _) as [e|] eqn:Hf; [|reflexivity].
  apply List.find_some in Hf as [Hin Hbad].
  apply List.filter_In in Hin as [Hin Hentry].
  apply numbered_strip in Hin as [line Hline].
  unfold unreadable, item_of in Hbad. simpl in Hbad.
  rewrite Hline in *. destruct (bam_item_entry line Hentry) as [it Hit].
  now rewrite Hit in Hbad.
Qed.

Lemma read_file_list_spec fp lt w :
  read_file_list E fp lt w =
  match fs w !! fp with
  | None => (Exit 1, err ("Error: " +:+ lt +:+ " file " +:+ fp +:+ " not found") w)
  | Some content =>
      match List.find (unreadable E lt) (entries content) with
      | Some (k, text) =>
          if String.eqb lt "bams" then (Uncaught "IndexError", w)
          else (Exit 1, err ("Error: Invalid " +:+ lt +:+ " value '" +:+ text
                             +:+ "' on line " +:+ Py.str (Z.of_nat k)
                             +:+ " in " +:+ fp) w)
      | None =>
          match omap (fun e => item_of E lt (snd e)) (entries content) with
          | [] => (Exit 1, err ("Error: No valid entries found in " +:+ fp) w)
          | items => (Ret items, w)
          end
      end
  end.
Proof.
  unfold read_file_list, bind at 1, path_exists.
  destruct (fs w !! fp) as [content|] eqn:Hfs.
  - rewrite bool_decide_eq_true_2 by eauto. cbn [negb].
    unfold bind at 1, read_lines. rewrite Hfs.
    unfold bind at 1. rewrite read_loop_spec. cbv zeta.
    fold (entries content).
    destruct (List.find _ _) as [[k text]|].
    + now destruct (String.eqb lt "bams").
    + rewrite app_nil_l. now destruct (omap _ _).
  - rewrite bool_decide_eq_false_2 by (intros [? ?]; discriminate).
    reflexivity.
Qed.

(** Resolving a list changes nothing but standard error. *)
Lemma read_file_list_frame fp lt w o w' :
  read_file_list E fp lt w = (o, w') ->
  fs w' = fs w /\ procs w' = procs w /\ stdout w' = stdout w
  /\ answers w' = answers w /\ asked w' = asked w.
Proof.
  rewrite read_file_list_spec.
  destruct (fs w !! fp); [destruct (List.find _ _) as [[k text]|];
    [destruct (String.eqb lt "bams") | destruct (omap _ _)] |];
  intros [= <- <-]; auto.
Qed.

End Lists.

(** ** The batch *)

Section Batch.

Context (E : env) (args : Args.t) (cfg : config).
Implicit Types (w : world) (l : list (string * string)).



(** The loop runs every entry, in order, whatever the runs return. *)
Lemma batch_loop_spec l n w :
  exists w',
    batch_loop E args cfg (map pair_item l) n w =
      (Ret (n + succeeded (batch_results E args cfg l w))%nat, w')
    /\ length (batch_results E args cfg l w) = length l
    /\ attempts (stdout w') = attempts (stdout w) ++ map attempt_line l.
Proof.
  revert n w. induction l as [|[b p] l IH]; intros n w.
  - exists w. simpl. unfold ret. rewrite Nat.add_0_r, app_nil_r. auto.
  - destruct (run_returns E (Some b) (Some p) args cfg w)
      as (ok & w1 & Hrun & _ & Hout).
    cbn [map pair_item fst snd batch_loop batch_results]. unfold bind.
    rewrite Hrun.
    destruct (IH (if ok then S n else n) w1) as (w' & Hloop & Hlen & Hout').
    exists w'. rewrite Hloop. split; [|split].
    + f_equal. f_equal. unfold succeeded. destruct ok; simpl; lia.
    + simpl. now rewrite Hlen.
    + rewrite Hout', Hout. now rewrite <- app_assoc.
Qed.

Lemma batch_loop_app (l1 l2 : list item) n w n1 w1 :
  batch_loop E args cfg l1 n w = (Ret n1, w1) ->
  batch_loop E args cfg (l1 ++ l2) n w = batch_loop E args cfg l2 n1 w1.
Proof.
  revert n w. induction l1 as [|[b p|x] l1 IH]; intros n w; simpl.
  - now intros [= -> ->].
  - unfold bind.
    destruct (run_single_bam E (Some b) (Some p) args cfg w) as [[ok| |] w2];
      try discriminate.
    apply IH.
  - discriminate.
Qed.

Lemma batch_loop_bounds (l : list item) n w m w' :
  batch_loop E args cfg l n w = (Ret m, w') -> (n <= m <= n + length l)%nat.
Proof.
  revert n w. induction l as [|[b p|x] l IH]; intros n w; simpl.
  - intros [= -> _]. lia.
  - unfold bind.
    destruct (run_single_bam E (Some b) (Some p) args cfg w) as [[ok| |] w2];
      try discriminate.
    intros H%IH. destruct ok; lia.
  - discriminate.
Qed.

End Batch.

(** ** Configuration synthesis *)

Lemma str_inj (a b : Z) : Py.str a = Py.str b -> a = b.
Proof.
  unfold Py.str. intros H. apply to_int_inj.
  assert (Hnn : forall n, Z.to_int n <> Decimal.Pos Decimal.Nil
                          /\ Z.to_int n <> Decimal.Neg Decimal.Nil).
  { intros [|q|q]; simpl; split; try discriminate;
      intros [= Hq]; now apply DecimalPos.Unsigned.to_uint_nonnil in Hq. }
  assert (Hs : Some (Z.to_int a) = Some (Z.to_int b)).
  { rewrite <- (NilZero.isi (Z.to_int a)) by apply Hnn.
    rewrite <- (NilZero.isi (Z.to_int b)) by apply Hnn.
    now rewrite H. }
  now injection Hs.
Qed.

(** C4. For every requested core count [c], the [angsd_threads] field of
    the synthesized configuration, in the base configuration and in the
    configuration of every run, is [max(1, min(c, 64))]: [1] below the
    range, [64] above it, [c] inside. *)
Theorem angsd_threads_clamp (args : Args.t) (thresholds roh_mins : list item)
    (bam_path prefix : option string) :
  let c := Args.cores args in
  let base := base_cfg args thresholds roh_mins in
  dict_get "angsd_threads" base = Some (VInt (Z.max 1 (Z.min c 64)))
  /\ dict_get "angsd_threads" (run_cfg bam_path prefix base)
     = Some (VInt (Z.max 1 (Z.min c 64)))
  /\ 1 <= Z.max 1 (Z.min c 64) <= 64
  /\ Z.max 1 (Z.min c 64) = (if c <? 1 then 1 else if 64 <? c then 64 else c).
Proof.
  intros c base. repeat split; try reflexivity; try lia.
  destruct (Z.ltb_spec c 1); [lia|]. destruct (Z.ltb_spec 64 c); lia.
Qed.

Example clamp_200 :
  dict_get "angsd_threads" (base_cfg (namespace [Pint d_cores 200]) [] [])
  = Some (VInt 64).
Proof. reflexivity. Qed.

Example clamp_0 :
  dict_get "angsd_threads" (base_cfg (namespace [Pint d_cores 0]) [] [])
  = Some (VInt 1).
Proof. reflexivity. Qed.

Example clamp_8 :
  dict_get "angsd_threads" (base_cfg (namespace []) [] []) = Some (VInt 8)
  /\ dict_get "angsd_threads" (base_cfg (namespace [Pint d_cores 8]) [] [])
     = Some (VInt 8).
Proof. split; reflexivity. Qed.

Section Synthesis.

Context (E : env).

(** A list of values holds numbers only. *)
Lemma values_are_numbers fp lt w items w' :
  String.eqb lt "bams" = false ->
  read_file_list E fp lt w = (Ret items, w') ->
  items <> [] /\ Forall (fun i => exists x, i = Num x) items.
Proof.
  intros Hlt. rewrite read_file_list_spec.
  destruct (fs w !! fp) as [content|]; [|discriminate].
  destruct (List.find _ _) as [[k text]|].
  { rewrite Hlt. discriminate. }
  destruct (omap _ _) as [|it its] eqn:Hitems; [discriminate|].
  intros [= <- <-]. split; [discriminate|]. rewrite <- Hitems.
  apply List.Forall_forall. intros i Hi. apply list_elem_of_In in Hi.
  apply list_elem_of_omap in Hi as [e [_ Hi]].
  unfold item_of in Hi. rewrite Hlt in Hi.
  destruct (float_of_str E (snd e)) as [x|]; [|discriminate].
  injection Hi as <-. eauto.
Qed.

Lemma resolve_roh_mins_numbers args w roh_mins w' :
  resolve_roh_mins E args w = (Ret roh_mins, w') ->
  roh_mins <> [] /\ Forall (fun i => exists x, i = Num x) roh_mins.
Proof.
  unfold resolve_roh_mins. destruct (truthy (Args.roh_list args)).
  - now apply values_are_numbers.
  - destruct (Args.roh_min args) as [|x xs]; intros [= <- <-].
    + split; [discriminate|]. repeat constructor. eauto.
    + split; [discriminate|]. apply List.Forall_forall.
      intros i Hi. change (In i (map Num (x :: xs))) in Hi.
      apply List.in_map_iff in Hi as [y [<- _]]. eauto.
Qed.

(** C5. For every resolved ROH threshold sequence, which is a non-empty
    sequence of numbers: if its length is exactly 1, the [roh_min] field of
    the configuration holds that single number as a scalar; if its length
    is greater than 1, the field holds the full sequence in source order. *)
Theorem roh_min_collapse (args : Args.t) (thresholds : list item)
    (bam_path prefix : option string) (w : world)
    (roh_mins : list item) (w' : world) :
  resolve_roh_mins E args w = (Ret roh_mins, w') ->
  let field :=
    dict_get "roh_min" (run_cfg bam_path prefix (base_cfg args thresholds roh_mins)) in
  (0 < length roh_mins)%nat
  /\ Forall (fun i => exists x, i = Num x) roh_mins
  /\ (length roh_mins = 1%nat ->
      exists x, roh_mins = [Num x] /\ field = Some (VItem (Num x)))
  /\ ((1 < length roh_mins)%nat -> field = Some (VList roh_mins)).
Proof.
  intros [Hne Hnum]%resolve_roh_mins_numbers field.
  split; [destruct roh_mins; [contradiction | simpl; lia]|].
  split; [assumption|]. split.
  - destruct roh_mins as [|i [|j rest]]; try discriminate. intros _.
    inversion Hnum as [|? ? [x ->] _]; subst. exists x. split; reflexivity.
  - destruct roh_mins as [|i [|j rest]]; simpl; try lia. reflexivity.
Qed.

(** C10. For every requested core count [c], a run that reaches the engine
    starts it with the raw [c] after [--cores], while the configuration it
    has written for the engine records the clamped [angsd_threads]; the two
    agree only for [c] in the range 1 to 64. *)
Theorem cores_raw_in_command (args : Args.t) (thresholds roh_mins : list item)
    (bam_path prefix : option string) (w : world) :
  Args.dry_run args = false ->
  skips args (cfg_path_of args prefix) w = false ->
  let c := Args.cores args in
  let base := base_cfg args thresholds roh_mins in
  let cfg := run_cfg bam_path prefix base in
  let p := cfg_path_of args prefix in
  let cmd := build_cmd args p in
  let w' := snd (run_single_bam E bam_path prefix args base w) in
  procs w' = procs w ++ [cmd]
  /\ fs w' = snd (snakemake E cmd (<[p := safe_dump E cfg]> (fs w)))
  /\ cmd !! 3%nat = Some "--cores"
  /\ cmd !! 4%nat = Some (Py.str c)
  /\ dict_get "angsd_threads" cfg = Some (VInt (Z.max 1 (Z.min c 64)))
  /\ (Py.str c = Py.str (Z.max 1 (Z.min c 64)) <-> 1 <= c <= 64).
Proof.
  intros Hdry Hgo c base cfg p cmd w'.
  destruct (run_proceeds E bam_path prefix args base w Hgo)
    as (w1 & Hfs & Hprocs & _ & _ & Hrun).
  fold p cmd cfg in Hfs, Hrun. rewrite Hdry in Hrun.
  assert (Hw' : procs w' = procs w ++ [cmd]
                /\ fs w' = snd (snakemake E cmd (fs w1))).
  { subst w'. rewrite Hrun. destruct (negb _); simpl; now rewrite Hprocs. }
  destruct Hw' as [Hp Hf]. rewrite Hfs in Hf.
  do 5 (split; [assumption || reflexivity|]).
  split.
  - intros Heq%str_inj. lia.
  - intros Hc. f_equal. lia.
Qed.

End Synthesis.

Lemma roh_min_collapse_witness :
  dict_get "roh_min"
    (run_cfg (Some "x.bam") (Some "s")
       (base_cfg (namespace [Pfloat d_roh_min default_threshold;
                             Pfloat d_roh_min default_roh_min])
          [Num default_threshold] [Num default_threshold; Num default_roh_min]))
  = Some (VList [Num default_threshold; Num default_roh_min]).
Proof.
  apply (roh_min_collapse sample_env
           (namespace [Pfloat d_roh_min default_threshold;
                       Pfloat d_roh_min default_roh_min])
           [Num default_threshold] (Some "x.bam") (Some "s")
           (sample_world [] "n") _ (sample_world [] "n") eq_refl).
  simpl. lia.
Defined.

Lemma cores_raw_in_command_witness :
  build_cmd (namespace [Pint d_cores 200]) "config_s.yaml" !! 4%nat = Some "200"
  /\ dict_get "angsd_threads"
       (run_cfg (Some "x.bam") (Some "s") (base_cfg (namespace [Pint d_cores 200]) [] []))
     = Some (VInt 64).
Proof.
  destruct (cores_raw_in_command sample_env (namespace [Pint d_cores 200]) [] []
              (Some "x.bam") (Some "s") (sample_world [] "n") eq_refl eq_refl)
    as (_ & _ & _ & Hcmd & Hcfg & _).
  split; [exact Hcmd | exact Hcfg].
Defined.


(** ** Sample lists *)

Lemma startswith_hash_head p :
  p <> "" -> no_space p = true -> Py.startswith "#" p = false ->
  exists c r, p = String c r /\ Py.isspace c = false /\ Ascii.eqb c "#" = false.
Proof.
  destruct p as [|c r]; [contradiction|]. intros _ Hns Hhash.
  exists c, r. simpl in Hns, Hhash.
  apply andb_true_iff in Hns as [Hc%negb_true_iff _].
  rewrite andb_true_r in Hhash. now rewrite Ascii.eqb_sym.
Qed.

(** C9. A sample-list line that holds only a path (white space around it
    aside) yields the path with, as prefix, the base name of the path with
    its extension removed: the path is a directory part, then the prefix,
    then an extension that is empty or runs from the last dot. A line that
    holds a path followed by a second word yields that word as prefix,
    whatever follows it. The items of a list of type [bams] are those of
    its non-blank, non-comment lines. *)
Theorem prefix_derivation (ws1 p ws2 : string) :
  all_space ws1 = true -> all_space ws2 = true ->
  no_space p = true -> p <> "" -> Py.startswith "#" p = false ->
  let stem := fst (Py.splitext (Py.basename p)) in
  (is_entry (Py.strip (ws1 +:+ p +:+ ws2)) = true
   /\ bam_item (Py.strip (ws1 +:+ p +:+ ws2)) = Some (Pair p stem))
  /\ (exists dir ext,
        p = dir +:+ stem +:+ ext
        /\ (dir = "" \/ exists d, dir = d +:+ "/")
        /\ occurs "/" (stem +:+ ext) = false
        /\ (ext = "" \/ exists e, ext = String "." e /\ occurs "." e = false))
  /\ (forall (sp : ascii) (q tail : string),
        Py.isspace sp = true -> no_space q = true -> q <> "" ->
        (tail = "" \/ exists c t, tail = String c t /\ Py.isspace c = true) ->
        let line := ws1 +:+ p +:+ String sp ws2 +:+ q +:+ tail in
        is_entry (Py.strip line) = true
        /\ bam_item (Py.strip line) = Some (Pair p q))
  /\ (forall (E : env) (filepath : string) (w w' : world) (items : list item),
        read_file_list E filepath "bams" w = (Ret items, w') ->
        exists content,
          fs w !! filepath = Some content
          /\ map (fun e => bam_item (snd e)) (entries content) = map Some items).
Proof.
  intros Hws1 Hws2 Hp Hne Hhash stem.
  destruct (startswith_hash_head p Hne Hp Hhash) as (c & r & -> & Hc & Hnothash).
  assert (Hentry : forall rest,
             is_entry (Py.strip (ws1 +:+ String c r +:+ rest)) = true).
  { intros rest. rewrite sapp_cons.
    destruct (strip_head ws1 c (r +:+ rest) Hws1 Hc) as [r' ->].
    now apply is_entry_head. }
  split; [|split; [|split]].
  - split; [apply Hentry|].
    unfold bam_item. rewrite split_strip. unfold Py.split.
    rewrite split_from_spaces, split_from_word by assumption.
    rewrite split_from_tail by assumption. reflexivity.
  - destruct (basename_spec (String c r)) as (dir & Hdir & Hslash & Hd).
    destruct (splitext_spec (Py.basename (String c r))) as [Hsplit Hext].
    exists dir, (snd (Py.splitext (Py.basename (String c r)))).
    subst stem. rewrite <- Hsplit. auto.
  - intros sp q tail Hsp Hq Hqne Htail line. split; [apply Hentry|].
    unfold bam_item. rewrite split_strip. unfold Py.split. subst line.
    rewrite split_from_spaces, split_from_word by assumption.
    rewrite sapp_cons. cbn [Py.split_from]. rewrite Hsp. cbn [String.eqb].
    rewrite split_from_spaces, split_from_word by assumption.
    destruct q as [|d q']; [contradiction|].
    destruct Htail as [->|(c' & t & -> & Hc')]; simpl.
    + reflexivity.
    + now rewrite Hc'.
  - intros E filepath w w' items Hread. rewrite read_file_list_spec in Hread.
    destruct (fs w !! filepath) as [content|]; [|discriminate].
    exists content. split; [reflexivity|].
    unfold entries in *. rewrite bams_readable in Hread.
    pose proof (bams_readable E 1 (Py.file_lines content)) as Hfind.
    apply (find_none_omap (fun e => item_of E "bams" (snd e))) in Hfind.
    destruct (omap _ _) eqn:Hitems; [discriminate|].
    injection Hread as <- <-. exact Hfind.
Qed.

Lemma prefix_derivation_witness :
  bam_item (Py.strip ("  /data/sample3.sorted.bam " +:+ nl))
  = Some (Pair "/data/sample3.sorted.bam" "sample3.sorted").
Proof.
  refine (proj2 (proj1 (prefix_derivation "  " "/data/sample3.sorted.bam"
                          (" " +:+ nl) eq_refl eq_refl eq_refl _ eq_refl))).
  discriminate.
Defined.

(** ** Dry run and overwrite guard *)

Section Guard.

Context (E : env).
Implicit Types (args : Args.t) (w : world) (cfg : config).



Lemma resolve_thresholds_frame args w o w' :
  resolve_thresholds E args w = (o, w') ->
  fs w' = fs w /\ procs w' = procs w /\ stdout w' = stdout w
  /\ answers w' = answers w /\ asked w' = asked w.
Proof.
  unfold resolve_thresholds. destruct (truthy _).
  - apply read_file_list_frame.
  - destruct (Args.threshold args); intros [= <- <-]; auto.
Qed.

Lemma resolve_roh_mins_frame args w o w' :
  resolve_roh_mins E args w = (o, w') ->
  fs w' = fs w /\ procs w' = procs w /\ stdout w' = stdout w
  /\ answers w' = answers w /\ asked w' = asked w.
Proof.
  unfold resolve_roh_mins. destruct (truthy _).
  - apply read_file_list_frame.
  - destruct (Args.roh_min args); intros [= <- <-]; auto.
Qed.



End Guard.



Section Skip.

Context (E : env) (args : Args.t) (cfg : config).

(** C2, as the program has it. For every batch entry whose target artifact
    path already exists, with force-overwrite absent and the confirmation
    answered with anything but yes, the run returns [False], the value a
    failed run returns: the success counter is not incremented, so that
    fewer runs succeeded than the list has entries; the files on disk are
    left unchanged and no process is started; the orchestrator proceeds to
    the subsequent entries. *)
Theorem skipped_entry_not_succeeded (before after : list item)
    (bam_path prefix : string) (w : world) (n1 : nat) (w1 : world) :
  batch_loop E args cfg before 0%nat w = (Ret n1, w1) ->
  is_Some (fs w1 !! cfg_path_of args (Some prefix)) ->
  Args.force args = false ->
  is_yes (answers w1 (asked w1)) = false ->
  exists w2,
    run_single_bam E (Some bam_path) (Some prefix) args cfg w1 = (Ret false, w2)
    /\ fs w2 = fs w1 /\ procs w2 = procs w1
    /\ In "Skipping this BAM." (stdout w2)
    /\ batch_loop E args cfg (before ++ Pair bam_path prefix :: after) 0%nat w
       = batch_loop E args cfg after n1 w2
    /\ forall m wf,
         batch_loop E args cfg after n1 w2 = (Ret m, wf) ->
         (m < length (before ++ Pair bam_path prefix :: after))%nat.
Proof.
  intros Hbefore Hex Hforce Hno.
  assert (Hskip : skips args (cfg_path_of args (Some prefix)) w1 = true).
  { unfold skips. rewrite bool_decide_eq_true_2, Hforce, Hno by assumption.
    reflexivity. }
  destruct (run_skipped E (Some bam_path) (Some prefix) args cfg w1 Hskip)
    as (w2 & Hrun & Hfs & Hprocs & _ & _ & Hout & _).
  exists w2. split; [assumption|]. split; [assumption|]. split; [assumption|].
  split; [rewrite Hout; apply List.in_or_app; right; simpl; auto 10|].
  split.
  - rewrite (batch_loop_app E args cfg before _ 0%nat w n1 w1 Hbefore).
    simpl. unfold bind. now rewrite Hrun.
  - intros m wf Hafter.
    apply batch_loop_bounds in Hbefore, Hafter.
    rewrite length_app. simpl. lia.
Qed.

End Skip.

Lemma skipped_entry_not_succeeded_witness :
  exists w2,
    run_single_bam sample_env (Some "x.bam") (Some "s") (namespace []) [] world_existing
    = (Ret false, w2)
    /\ fs w2 = fs world_existing.
Proof.
  destruct (skipped_entry_not_succeeded sample_env (namespace []) []
              [] [] "x.bam" "s" world_existing 0%nat world_existing eq_refl
              (ex_intro _ ("old" +:+ nl) eq_refl) eq_refl eq_refl)
    as (w2 & Hrun & Hfs & _).
  exists w2. split; assumption.
Defined.

(** C2 as stated fails: with [config_s.yaml] in place and the operator
    answering no, the run of the sample [s] returns [False], as does the
    run of the sample [bad] on which the engine fails; the list of the one
    skipped sample is reported as 0 of 1 completed and the program ends
    with status 1, as it does for the list of the one failed sample. *)
Lemma skipped_run_counts_as_failed :
  fst (run_single_bam sample_env (Some "x.bam") (Some "s")
         (namespace [Pstr d_bam_list "list.txt"]) [] world_existing) = Ret false
  /\ fst (run_single_bam sample_env (Some "bad.bam") (Some "bad")
            (namespace [Pstr d_bam_list "list.txt"]) [] world_bad) = Ret false
  /\ run_status sample_env argv_list world_existing = 1
  /\ run_status sample_env argv_list world_bad = 1
  /\ last (stdout (snd (main sample_env argv_list world_existing)))
     = Some "Completed 0/1 BAM files successfully"
  /\ last (stdout (snd (main sample_env argv_list world_bad)))
     = Some "Completed 0/1 BAM files successfully"
  /\ procs (snd (main sample_env argv_list world_existing)) = []
  /\ fs (snd (main sample_env argv_list world_existing)) = fs world_existing.
Proof. vm_compute. repeat split; reflexivity. Qed.

(** ** The command line *)

Section Parser.

Context (E : env).
Implicit Types (argv : list cli_opt) (seen : list dest) (d : dest).

Lemma parse_opts_cons seen o argv pos :
  parse_opts E seen (o :: argv) = inr pos ->
  exists po pos',
    pos = po :: pos' /\ convert E o = inr po
    /\ List.find (fun d => bool_decide (d ∈ seen)) (conflicts (dest_of o)) = None
    /\ parse_opts E (dest_of o :: seen) argv = inr pos'.
Proof.
  simpl. destruct (convert E o) as [msg|po]; [discriminate|].
  destruct (List.find _ _); [discriminate|].
  destruct (parse_opts E _ argv) as [msg|pos']; [discriminate|].
  intros [= <-]. eauto 10.
Qed.

Lemma convert_dest o po : convert E o = inr po -> dest_of_parsed po = dest_of o.
Proof.
  destruct o as [d arg|d]; simpl; destruct (kind_of d);
    try destruct (int_of_str E arg); try destruct (float_of_str E arg);
    try discriminate; now intros [= <-].
Qed.

(** The accepted occurrences are those given, in order. *)
Lemma parse_opts_dests seen argv pos :
  parse_opts E seen argv = inr pos -> map dest_of_parsed pos = map dest_of argv.
Proof.
  revert seen pos. induction argv as [|o argv IH]; intros seen pos.
  - now intros [= <-].
  - intros (po & pos' & -> & Hc & _ & Hrest)%parse_opts_cons.
    simpl. f_equal; [now apply convert_dest | now apply IH in Hrest].
Qed.

(** An option is refused once the other member of its group was seen. *)
Lemma parse_opts_refuses d d' seen argv :
  conflicts d = [d'] -> d' ∈ seen -> In d (map dest_of argv) ->
  exists msg, parse_opts E seen argv = inl msg.
Proof.
  intros Hconf. revert seen. induction argv as [|o argv IH]; intros seen Hseen Hin.
  - destruct Hin.
  - destruct (parse_opts E seen (o :: argv)) as [msg|pos] eqn:Hp; [eauto|].
    apply parse_opts_cons in Hp as (po & pos' & -> & _ & Hfind & Hrest).
    destruct Hin as [Hd|Hin].
    + rewrite Hd, Hconf in Hfind. simpl in Hfind.
      rewrite bool_decide_eq_true_2 in Hfind by assumption. discriminate.
    + destruct (IH (dest_of o :: seen)) as [msg Hmsg]; [set_solver | assumption |].
      congruence.
Qed.

(** Two options of one group are never accepted together. *)
Lemma parse_opts_exclusive d d' seen argv :
  conflicts d = [d'] -> conflicts d' = [d] ->
  In d (map dest_of argv) -> In d' (map dest_of argv) ->
  exists msg, parse_opts E seen argv = inl msg.
Proof.
  intros Hconf Hconf'. revert seen.
  induction argv as [|o argv IH]; intros seen Hin Hin'; [destruct Hin|].
  destruct (parse_opts E seen (o :: argv)) as [msg|pos] eqn:Hp; [eauto|].
  apply parse_opts_cons in Hp as (po & pos' & -> & _ & Hfind & Hrest).
  assert (Hne : d <> d').
  { intros <-. destruct d; discriminate. }
  destruct Hin as [Hd|Hin], Hin' as [Hd'|Hin'].
  - congruence.
  - destruct (parse_opts_refuses d' d (dest_of o :: seen) argv Hconf')
      as [msg Hmsg]; [set_solver | assumption | congruence].
  - destruct (parse_opts_refuses d d' (dest_of o :: seen) argv Hconf)
      as [msg Hmsg]; [set_solver | assumption | congruence].
  - destruct (IH (dest_of o :: seen) Hin Hin') as [msg Hmsg]. congruence.
Qed.

Lemma stored_str_given d pos s :
  stored_str d pos = Some s -> In d (map dest_of_parsed pos).
Proof.
  unfold stored_str. intros Hlast%last_Some_elem_of.
  apply list_elem_of_omap in Hlast as (po & Hin%list_elem_of_In & Hpo).
  destruct po as [d0 s0| | |]; try discriminate.
  destruct (bool_decide_reflect (d = d0)) as [->|]; [|discriminate].
  now apply (List.in_map dest_of_parsed) in Hin.
Qed.

(** C3, as the program has it. An invocation that supplies both the region
    string option and the region-file option is refused by the parser, in
    whose declaration the two form a mutually exclusive group: the program
    ends with status 2 after the error message and builds no
    configuration. What the parser accepts has at most one of the two, and
    each is passed through into the field of its name, [regions] or [rf]. *)
Theorem regions_and_rf_exclusive (argv : list cli_opt) (w : world) :
  (forall region file : string,
     In (Opt d_regions region) argv -> In (Opt d_rf file) argv ->
     exists msg, main E argv w = (Exit 2, err ("hetcall: error: " +:+ msg) w))
  /\ (forall (args : Args.t) (w' : world),
        parse_args E argv w = (Ret args, w') ->
        (Args.regions args = None \/ Args.rf args = None)
        /\ forall (thresholds roh_mins : list item) (bam_path prefix : option string),
             let cfg := run_cfg bam_path prefix (base_cfg args thresholds roh_mins) in
             dict_get "regions" cfg = Some (opt_value (Args.regions args))
             /\ dict_get "rf" cfg = Some (opt_value (Args.rf args))).
Proof.
  split.
  - intros region file Hr Hf.
    apply (List.in_map dest_of) in Hr, Hf. simpl in Hr, Hf.
    destruct (parse_opts_exclusive d_regions d_rf [] argv eq_refl eq_refl Hr Hf)
      as [msg Hmsg].
    exists msg. unfold main.
    destruct argv as [|o [|o' argv']]; [destruct Hr | |].
    + destruct Hr as [Hr|[]], Hf as [Hf|[]]. congruence.
    + destruct o as [d0 a0|[]]; unfold bind, parse_args; now rewrite Hmsg.
  - intros args w' Hparse. unfold parse_args in Hparse.
    destruct (parse_opts E [] argv) as [msg|pos] eqn:Hpos; [discriminate|].
    destruct (existsb _ pos); [|discriminate].
    injection Hparse as <- <-. split; [|intros; split; reflexivity].
    simpl. destruct (stored_str d_regions pos) as [region|] eqn:Hr; [|auto].
    destruct (stored_str d_rf pos) as [file|] eqn:Hf; [|auto].
    apply stored_str_given in Hr, Hf.
    rewrite (parse_opts_dests _ _ _ Hpos) in Hr, Hf.
    destruct (parse_opts_exclusive d_regions d_rf [] argv eq_refl eq_refl Hr Hf).
    congruence.
Qed.

End Parser.

Lemma regions_and_rf_exclusive_witness :
  exists msg,
    main sample_env argv_two_regions world_fresh
    = (Exit 2, err ("hetcall: error: " +:+ msg) world_fresh).
Proof.
  apply (proj1 (regions_and_rf_exclusive sample_env argv_two_regions world_fresh)
           "chr1:" "scaffolds.txt"); simpl; auto.
Defined.

(** C3 as stated fails: [hetcall -b x.bam -o s -r chr1: -f scaffolds.txt]
    is refused with the parser's message and status 2; nothing is written
    and nothing is run. *)
Lemma two_regions_refused :
  main sample_env argv_two_regions world_fresh
  = (Exit 2,
     err "hetcall: error: argument -f/--rf: not allowed with argument -r/--regions"
         world_fresh)
  /\ run_status sample_env argv_two_regions world_fresh = 2
  /\ fs (snd (main sample_env argv_two_regions world_fresh)) = ∅
  /\ procs (snd (main sample_env argv_two_regions world_fresh)) = [].
Proof. repeat split; reflexivity. Qed.

(** ** List resolution in the program *)

Section Resolution.

Context (E : env).
Implicit Types (args : Args.t) (w : world).

Lemma read_file_list_exit fp lt w c w' :
  read_file_list E fp lt w = (Exit c, w') -> c = 1.
Proof.
  rewrite read_file_list_spec.
  destruct (fs w !! fp); [destruct (List.find _ _) as [[k text]|];
    [destruct (String.eqb lt "bams") | destruct (omap _ _)] |];
  now intros [= <- _].
Qed.

Lemma resolve_thresholds_exit args w c w' :
  resolve_thresholds E args w = (Exit c, w') -> c = 1.
Proof.
  unfold resolve_thresholds. destruct (truthy _).
  - apply read_file_list_exit.
  - destruct (Args.threshold args); discriminate.
Qed.

Lemma resolve_roh_mins_exit args w c w' :
  resolve_roh_mins E args w = (Exit c, w') -> c = 1.
Proof.
  unfold resolve_roh_mins. destruct (truthy _).
  - apply read_file_list_exit.
  - destruct (Args.roh_min args); discriminate.
Qed.


End Resolution.


(** ** The batch in the program *)

Section Orchestration.

Context (E : env).
Implicit Types (args : Args.t) (w : world).

(** A list of type [bams] holds pairs only, those of its entries. *)
Lemma bams_are_pairs fp w items w' :
  read_file_list E fp "bams" w = (Ret items, w') ->
  w' = w
  /\ exists content (l : list (string * string)),
       fs w !! fp = Some content
       /\ items = map pair_item l
       /\ map (fun e => bam_item (snd e)) (entries content) = map Some items.
Proof.
  rewrite read_file_list_spec.
  destruct (fs w !! fp) as [content|]; [|discriminate].
  unfold entries. rewrite bams_readable.
  pose proof (bams_readable E 1 (Py.file_lines content)) as Hfind.
  apply (find_none_omap (fun e => item_of E "bams" (snd e))) in Hfind.
  destruct (omap _ _) as [|it its] eqn:Hitems; [discriminate|].
  intros [= <- <-]. split; [reflexivity|].
  exists content,
    (map (fun i => match i with Pair a b => (a, b) | Num _ => ("", "") end) (it :: its)).
  split; [reflexivity|]. split; [|exact Hfind].
  rewrite List.map_map. symmetry. rewrite <- (List.map_id (it :: its)) at 2.
  apply List.map_ext_in. intros i Hi. rewrite <- Hitems in Hi.
  apply list_elem_of_In, list_elem_of_omap in Hi as (e & _ & He).
  unfold item_of, bam_item in He. simpl in He.
  destruct (Py.split (snd e)) as [|a [|b rest]]; try discriminate;
    now injection He as <-.
Qed.


Lemma attempts_out s w :
  Py.startswith "Processing: " s = false ->
  attempts (stdout (out s w)) = attempts (stdout w).
Proof.
  intros Hs. unfold out, attempts. cbn [stdout].
  rewrite List.filter_app. cbn [List.filter]. rewrite Hs. apply app_nil_r.
Qed.

(** What the branch for a BAM list does once the list is read. *)
Lemma run_bam_list_spec args cfg w (l : list (string * string)) :
  read_file_list E (fmt (Args.bam_list args)) "bams" w = (Ret (map pair_item l), w) ->
  exists w',
    run_bam_list E args cfg w
    = (if (succeeded (batch_results E args cfg l
                        (out ("Found " +:+ Py.str (Z.of_nat (length l))
                              +:+ " BAM files to process") w)) <? length l)%nat
       then Exit 1 else Ret tt, w')
    /\ attempts (stdout w') = attempts (stdout w) ++ map attempt_line l
    /\ last (stdout w')
       = Some ("Completed "
               +:+ Py.str (Z.of_nat (succeeded (batch_results E args cfg l
                     (out ("Found " +:+ Py.str (Z.of_nat (length l))
                           +:+ " BAM files to process") w))))
               +:+ "/" +:+ Py.str (Z.of_nat (length l))
               +:+ " BAM files successfully").
Proof.
  intros Hread. unfold run_bam_list, bind at 1. rewrite Hread.
  unfold bind at 1, print at 1. unfold bind at 1.
  rewrite length_map.
  destruct (batch_loop_spec E args cfg l 0%nat
              (out ("Found " +:+ Py.str (Z.of_nat (length l))
                    +:+ " BAM files to process") w))
    as (w4 & -> & _ & Hout).
  rewrite attempts_out in Hout by reflexivity.
  unfold bind, print, sys_exit, ret. cbn [Nat.add].
  eexists. split; [|split].
  - destruct (_ <? _)%nat; reflexivity.
  - rewrite !attempts_out by reflexivity. exact Hout.
  - simpl. now rewrite last_snoc.
Qed.




End Orchestration.


(** The scenario of the specification: three lines, one of them a comment,
    give two runs, with the prefixes [sampleA] and [b]. *)
Example three_lines_two_runs :
  attempts (stdout (snd (main sample_env argv_list world_three_lines)))
  = ["Processing: a.bam -> sampleA"; "Processing: b.bam -> b"]
  /\ run_status sample_env argv_list world_three_lines = 0.
Proof. split; reflexivity. Qed.



(** What the parser refuses ends the program with status 2, and a request
    for help with status 0. *)
Lemma parser_refusal_status (E : env) (argv : list cli_opt) (w : world) (msg : string) :
  parse_opts E [] argv = inl msg -> run_status E argv w = 2.
Proof.
  intros Hp. unfold run_status, main.
  destruct argv as [|[d a|[]] [|o argv]]; try discriminate;
    unfold bind, parse_args; now rewrite Hp.
Qed.

Lemma help_status (E : env) (args : Args.t) (w : world) :
  Args.help args = true -> exit_status (fst (main_with E args w)) = 0.
Proof. intros Hh. unfold main_with. now rewrite Hh. Qed.

(** ** Examples *)

Example split_words :
  Py.split "  /data/s1.bam   s1  x" = ["/data/s1.bam"; "s1"; "x"].
Proof. reflexivity. Qed.

Example strip_both_ends : Py.strip ("  a b  " +:+ nl) = "a b".
Proof. reflexivity. Qed.

Example basename_of_path : Py.basename "/data/sample3.bam" = "sample3.bam".
Proof. reflexivity. Qed.

Example splitext_last_dot :
  Py.splitext "sample3.sorted.bam" = ("sample3.sorted", ".bam")
  /\ Py.splitext ".hidden" = (".hidden", "")
  /\ Py.splitext "/a.b/c" = ("/a.b/c", "")
  /\ Py.splitext "reads.cram" = ("reads", ".cram").
Proof. repeat split; reflexivity. Qed.

Example universal_newlines :
  Py.file_lines ("a" +:+ String "013" (String "010" "b")) = ["a" +:+ nl; "b"].
Proof. reflexivity. Qed.

Example str_of_int : Py.str 200 = "200" /\ Py.str (-3) = "-3" /\ Py.str 0 = "0".
Proof. repeat split; reflexivity. Qed.

(** The scenario of the specification: thresholds given as the repeated
    flags [0.05] and [0.1] and no ROH flag give the list of the two
    thresholds and the scalar default [0.2]. *)
Example thresholds_and_default_roh :
  fs (snd (main sample_env
             [Opt d_bam "x.bam"; Opt d_out_prefix "s";
              Opt d_threshold "0.05"; Opt d_threshold "0.1"] world_fresh))
    !! "config_s.yaml"
  = Some (sample_dump
            [("rf", VNone); ("regions", VNone); ("scripts", VStr "diversity");
             ("outdir", VStr "results"); ("min_depth", VInt 10);
             ("thresholds", VList [Num default_threshold; Num 0x1.999999999999ap-4%float]);
             ("roh_min", VItem (Num default_roh_min));
             ("angsd_threads", VInt 8);
             ("bam", VStr "x.bam"); ("prefix", VStr "s")]).
Proof. vm_compute. reflexivity. Qed.

(** A list of thresholds whose third line is not a number is refused with
    the number and the text of the line. *)
Example bad_threshold_reported :
  stderr (snd (main_with sample_env args_threshold_list world_thresholds))
  = ["Error: Invalid thresholds value '0,1' on line 3 in t.txt"].
Proof. reflexivity. Qed.

(** * Further properties *)

(** ** What the parser returns *)

Section ParserResults.

Context (E : env).
Implicit Types (argv : list cli_opt) (pos : list parsed_opt) (d : dest).

Lemma parse_opts_converts seen argv pos :
  parse_opts E seen argv = inr pos ->
  Forall2 (fun o po => convert E o = inr po) argv pos.
Proof.
  revert seen pos. induction argv as [|o argv IH]; intros seen pos.
  - intros [= <-]. constructor.
  - intros (po & pos' & -> & Hc & _ & Hrest)%parse_opts_cons.
    constructor; [assumption | eapply IH, Hrest].
Qed.


Lemma parse_args_cases argv w :
  (exists pos, parse_opts E [] argv = inr pos
               /\ existsb (fun po => bool_decide (dest_of_parsed po ∈ [d_bam; d_bam_list]))
                    pos = true
               /\ parse_args E argv w = (Ret (namespace pos), w))
  \/ (~ accepted E argv
      /\ exists msg, parse_args E argv w = (Exit 2, err ("hetcall: error: " +:+ msg) w)).
Proof.
  unfold accepted, parse_args.
  destruct (parse_opts E [] argv) as [msg|pos] eqn:Hp.
  - right. split; [intros (? & [=] & _) | eauto].
  - destruct (existsb _ pos) eqn:Hreq.
    + left. eauto.
    + right. split; [|eauto]. intros (pos' & [= <-] & Hreq'). congruence.
Qed.

(** The stored strings of an option that takes a string are the arguments
    given to it. *)
Lemma stored_strs_given d argv pos :
  kind_of d = KStr ->
  Forall2 (fun o po => convert E o = inr po) argv pos ->
  omap (fun po => match po with
                  | Pstr d' s => if bool_decide (d = d') then Some s else None
                  | _ => None
                  end) pos
  = given d argv.
Proof.
  intros Hk. unfold given. induction 1 as [|o po argv pos Hc _ IH]; [reflexivity|].
  cbn [omap list_omap]. rewrite <- IH. clear IH.
  destruct o as [d' arg|d']; simpl in Hc.
  - destruct (kind_of d') eqn:Hk'.
    + injection Hc as <-. reflexivity.
    + destruct (int_of_str E arg); [|discriminate]. injection Hc as <-.
      case_bool_decide; [congruence | reflexivity].
    + destruct (float_of_str E arg); [|discriminate]. injection Hc as <-.
      case_bool_decide; [congruence | reflexivity].
    + discriminate.
  - destruct (kind_of d'); try discriminate. now injection Hc as <-.
Qed.

Lemma stored_ints_given d argv pos :
  kind_of d = KInt ->
  Forall2 (fun o po => convert E o = inr po) argv pos ->
  map Some (omap (fun po => match po with
                            | Pint d' n => if bool_decide (d = d') then Some n else None
                            | _ => None
                            end) pos)
  = map (int_of_str E) (given d argv).
Proof.
  intros Hk. unfold given. induction 1 as [|o po argv pos Hc _ IH]; [reflexivity|].
  cbn [omap list_omap].
  destruct o as [d' arg|d']; simpl in Hc.
  - destruct (kind_of d') eqn:Hk'.
    + injection Hc as <-. case_bool_decide; [congruence | exact IH].
    + destruct (int_of_str E arg) as [n|] eqn:Hn; [|discriminate]. injection Hc as <-.
      case_bool_decide; [|exact IH]. simpl. now rewrite IH, Hn.
    + destruct (float_of_str E arg); [|discriminate]. injection Hc as <-.
      case_bool_decide; [congruence | exact IH].
    + discriminate.
  - destruct (kind_of d'); try discriminate. injection Hc as <-. exact IH.
Qed.

Lemma appended_given d argv pos :
  kind_of d = KFloat ->
  Forall2 (fun o po => convert E o = inr po) argv pos ->
  map Some (appended d pos) = map (float_of_str E) (given d argv).
Proof.
  intros Hk. unfold given, appended.
  induction 1 as [|o po argv pos Hc _ IH]; [reflexivity|].
  cbn [omap list_omap].
  destruct o as [d' arg|d']; simpl in Hc.
  - destruct (kind_of d') eqn:Hk'.
    + injection Hc as <-. case_bool_decide; [congruence | exact IH].
    + destruct (int_of_str E arg); [|discriminate]. injection Hc as <-.
      case_bool_decide; [congruence | exact IH].
    + destruct (float_of_str E arg) as [x|] eqn:Hx; [|discriminate]. injection Hc as <-.
      case_bool_decide; [|exact IH]. simpl. now rewrite IH, Hx.
    + discriminate.
  - destruct (kind_of d'); try discriminate. injection Hc as <-. exact IH.
Qed.

Lemma flagged_given d argv pos :
  Forall2 (fun o po => convert E o = inr po) argv pos ->
  flagged d pos = flag_given d argv.
Proof.
  unfold flagged, flag_given.
  induction 1 as [|o po argv pos Hc _ IH]; [reflexivity|].
  cbn [existsb]. rewrite IH. f_equal. clear IH.
  destruct o as [d' arg|d']; simpl in Hc.
  - destruct (kind_of d'); try discriminate;
      [| destruct (int_of_str E arg) | destruct (float_of_str E arg)];
      try discriminate; now injection Hc as <-.
  - destruct (kind_of d'); try discriminate. now injection Hc as <-.
Qed.

End ParserResults.

Section ParserTheorems.

Context (E : env).
Implicit Types (argv : list cli_opt) (pos : list parsed_opt) (d : dest) (w : world).

Lemma main_parses argv w :
  argv <> [] -> argv <> [Flag d_help] ->
  main E argv w = bind (parse_args E argv) (main_with E) w.
Proof.
  intros Hne Hnh. unfold main.
  destruct argv as [|[d a|[]] [|o argv]]; try reflexivity; contradiction.
Qed.

Lemma last_map_some {A B} (f : A -> option B) (l : list A) (l' : list B) :
  map Some l' = map f l ->
  match last l with
  | None => last l' = None
  | Some a => exists b, last l' = Some b /\ f a = Some b
  end.
Proof.
  revert l'. induction l as [|a l IH]; intros [|b l']; try discriminate.
  - reflexivity.
  - intros [= Hb Hrest]. specialize (IH l' Hrest).
    destruct l as [|a' l]; destruct l' as [|b' l']; try discriminate.
    + simpl. eauto.
    + exact IH.
Qed.

(** X3. What [parse_args] returns for a command line it accepts: an option
    stored with [action=store] holds the argument of its last occurrence,
    converted where a type is declared, or its declared default when it
    does not occur; the arguments of the repeated options [-t] and [-R]
    are all converted and kept in the order given; a flag is true exactly
    when it occurs. Parsing prints nothing. *)
Theorem parsed_arguments (argv : list cli_opt) (w : world) (args : Args.t) (w' : world) :
  parse_args E argv w = (Ret args, w') ->
  w' = w
  /\ (Args.bam args = last (given d_bam argv)
      /\ Args.bam_list args = last (given d_bam_list argv)
      /\ Args.out_prefix args = last (given d_out_prefix argv)
      /\ Args.threshold_list args = last (given d_threshold_list argv)
      /\ Args.roh_list args = last (given d_roh_list argv)
      /\ Args.regions args = last (given d_regions argv)
      /\ Args.rf args = last (given d_rf argv)
      /\ Args.configfile args = last (given d_configfile argv))
  /\ (Args.outdir args = default "results" (last (given d_outdir argv))
      /\ Args.scripts args = default "diversity" (last (given d_scripts argv))
      /\ Args.snakefile args = default "Snakefile" (last (given d_snakefile argv)))
  /\ (match last (given d_min_depth argv) with
      | None => Args.min_depth args = 10
      | Some arg => int_of_str E arg = Some (Args.min_depth args)
      end
      /\ match last (given d_cores argv) with
         | None => Args.cores args = 8
         | Some arg => int_of_str E arg = Some (Args.cores args)
         end)
  /\ (map Some (Args.threshold args) = map (float_of_str E) (given d_threshold argv)
      /\ map Some (Args.roh_min args) = map (float_of_str E) (given d_roh_min argv))
  /\ (Args.dry_run args = flag_given d_dry_run argv
      /\ Args.unlock args = flag_given d_unlock argv
      /\ Args.force args = flag_given d_force argv
      /\ Args.help args = flag_given d_help argv).
Proof.
  intros Hparse.
  destruct (parse_args_cases E argv w) as [(pos & Hpos & _ & Hret)|(_ & msg & Hmsg)];
    [|congruence].
  rewrite Hret in Hparse. injection Hparse as <- <-.
  apply parse_opts_converts in Hpos.
  split; [reflexivity|].
  unfold namespace, stored_str, stored_int. cbn [Args.bam Args.bam_list Args.out_prefix
    Args.threshold_list Args.roh_list Args.regions Args.rf Args.configfile Args.outdir
    Args.scripts Args.snakefile Args.min_depth Args.cores Args.threshold Args.roh_min
    Args.dry_run Args.unlock Args.force Args.help].
  rewrite !(stored_strs_given E _ argv pos) by (reflexivity || assumption).
  split; [repeat split|]. split; [repeat split|].
  split; [|split].
  - split.
    + pose proof (last_map_some _ _ _ (stored_ints_given E d_min_depth argv pos eq_refl Hpos))
        as Hl.
      destruct (last (given d_min_depth argv)); [destruct Hl as (n & -> & ->)|rewrite Hl];
        reflexivity.
    + pose proof (last_map_some _ _ _ (stored_ints_given E d_cores argv pos eq_refl Hpos))
        as Hl.
      destruct (last (given d_cores argv)); [destruct Hl as (n & -> & ->)|rewrite Hl];
        reflexivity.
  - split; apply (appended_given E); (reflexivity || assumption).
  - repeat split; now apply (flagged_given E).
Qed.

Lemma given_dest d argv : given d argv <> [] -> In d (map dest_of argv).
Proof.
  unfold given. induction argv as [|o argv IH]; [contradiction|].
  cbn [omap list_omap map]. destruct o as [d' arg|d'].
  - case_bool_decide; [subst; now left | right; auto].
  - right. auto.
Qed.

Lemma dest_given d argv pos :
  kind_of d = KStr ->
  Forall2 (fun o po => convert E o = inr po) argv pos ->
  In d (map dest_of argv) -> given d argv <> [].
Proof.
  intros Hk. unfold given. induction 1 as [|o po argv pos Hc _ IH]; [contradiction|].
  intros [Hd|Hin]; cbn [omap list_omap].
  - destruct o as [d' arg|d']; simpl in Hd; subst d'.
    + rewrite bool_decide_eq_true_2 by reflexivity. discriminate.
    + simpl in Hc. rewrite Hk in Hc. discriminate.
  - specialize (IH Hin). destruct o as [d' arg|d']; [case_bool_decide|];
      auto; discriminate.
Qed.

Lemma last_nonempty {A} (l : list A) : l <> [] -> is_Some (last l).
Proof.
  destruct l as [|a l] using rev_ind; [contradiction|].
  intros _. rewrite last_snoc. eauto.
Qed.

(** X2. The sample source is required and single: an accepted command line
    gives either [--bam] or [--bam-list], never both and never neither;
    a command line with neither is refused with status 2 before anything
    else happens. *)
Theorem one_sample_source (argv : list cli_opt) (w : world) :
  (forall args w',
     parse_args E argv w = (Ret args, w') ->
     (is_Some (Args.bam args) /\ Args.bam_list args = None)
     \/ (Args.bam args = None /\ is_Some (Args.bam_list args)))
  /\ (argv <> [] -> argv <> [Flag d_help] ->
      ~ In d_bam (map dest_of argv) -> ~ In d_bam_list (map dest_of argv) ->
      exists msg, main E argv w = (Exit 2, err ("hetcall: error: " +:+ msg) w)).
Proof.
  split.
  - intros args w' Hparse.
    destruct (parse_args_cases E argv w) as [(pos & Hpos & Hreq & Hret)|(_ & msg & Hmsg)];
      [|congruence].
    rewrite Hret in Hparse. injection Hparse as <- <-.
    pose proof (parse_opts_dests E _ _ _ Hpos) as Hdests.
    pose proof (parse_opts_converts E _ _ _ Hpos) as Hconv.
    unfold namespace, stored_str. cbn [Args.bam Args.bam_list].
    rewrite !(stored_strs_given E _ argv pos) by (reflexivity || assumption).
    apply existsb_exists in Hreq as (po & Hin & Hpo).
    apply bool_decide_eq_true in Hpo.
    apply (List.in_map dest_of_parsed) in Hin. rewrite Hdests in Hin.
    assert (Hnot : ~ (given d_bam argv <> [] /\ given d_bam_list argv <> [])).
    { intros [Hb%given_dest Hl%given_dest].
      destruct (parse_opts_exclusive E d_bam d_bam_list [] argv eq_refl eq_refl Hb Hl).
      congruence. }
    apply elem_of_cons in Hpo as [Hpo|Hpo%list_elem_of_singleton]; rewrite Hpo in Hin.
    + pose proof (dest_given d_bam argv pos eq_refl Hconv Hin) as Hb.
      left. split; [now apply last_nonempty|].
      destruct (given d_bam_list argv); [reflexivity | exfalso; apply Hnot; split; easy].
    + pose proof (dest_given d_bam_list argv pos eq_refl Hconv Hin) as Hl.
      right. split; [|now apply last_nonempty].
      destruct (given d_bam argv); [reflexivity | exfalso; apply Hnot; split; easy].
  - intros Hne Hnh Hb Hl. rewrite main_parses by assumption. unfold bind.
    destruct (parse_args_cases E argv w) as [(pos & Hpos & Hreq & Hret)|(_ & msg & ->)];
      [|eauto].
    exfalso. apply existsb_exists in Hreq as (po & Hin & Hpo).
    apply bool_decide_eq_true in Hpo.
    apply (List.in_map dest_of_parsed) in Hin.
    rewrite (parse_opts_dests E _ _ _ Hpos) in Hin.
    apply elem_of_cons in Hpo as [Hpo|Hpo%list_elem_of_singleton]; rewrite Hpo in Hin;
      contradiction.
Qed.

(** X1. Two options of one mutually exclusive group, be it the sample
    source ([-b], [-l]), the thresholds ([-t], [-T]), the ROH thresholds
    ([-R], [-L]) or the regions ([-r], [-f]), are refused together: the
    program ends with status 2 after the parser's message, and has read,
    written and run nothing. *)
Theorem exclusive_groups (argv : list cli_opt) (w : world) (d d' : dest) :
  In d' (conflicts d) ->
  In d (map dest_of argv) -> In d' (map dest_of argv) ->
  exists msg, main E argv w = (Exit 2, err ("hetcall: error: " +:+ msg) w).
Proof.
  intros Hconf Hd Hd'.
  assert (Hc : conflicts d = [d'] /\ conflicts d' = [d]).
  { destruct d; simpl in Hconf; try contradiction;
      destruct Hconf as [<-|[]]; split; reflexivity. }
  destruct Hc as [Hc Hc'].
  destruct (parse_opts_exclusive E d d' [] argv Hc Hc' Hd Hd') as [msg Hmsg].
  exists msg. rewrite main_parses.
  - unfold bind, parse_args. now rewrite Hmsg.
  - intros ->. destruct Hd.
  - intros ->. destruct Hd as [<-|[]]. destruct Hd' as [<-|[]]. discriminate.
Qed.


End ParserTheorems.

(** ** Exit status *)

Section Status.

Context (E : env).
Implicit Types (args : Args.t) (w : world).

Lemma read_bams_outcome fp w :
  (exists c w', read_file_list E fp "bams" w = (Exit c, w') /\ c = 1)
  \/ (exists l : list (string * string),
        read_file_list E fp "bams" w = (Ret (map pair_item l), w)).
Proof.
  destruct (read_file_list E fp "bams" w) as [[items|c|e] w'] eqn:Hread.
  - right. apply bams_are_pairs in Hread as (-> & _ & l & _ & -> & _). eauto.
  - left. exists c, w'. split; [reflexivity|]. eapply read_file_list_exit, Hread.
  - exfalso. rewrite read_file_list_spec in Hread.
    destruct (fs w !! fp) as [content|]; [|discriminate].
    unfold entries in Hread. rewrite bams_readable in Hread.
    now destruct (omap _ _).
Qed.

Lemma main_with_status args w :
  exit_status (fst (main_with E args w)) = 0
  \/ exit_status (fst (main_with E args w)) = 1.
Proof.
  remember (exit_status (fst (main_with E args w))) as st eqn:Hst.
  unfold main_with in Hst.
  destruct (Args.help args); [now left|].
  destruct (_ && _); [now right|].
  unfold bind at 1 in Hst.
  destruct (resolve_thresholds E args w) as [[t|c|e] w1] eqn:Ht;
    [| apply resolve_thresholds_exit in Ht as ->; now right | now right].
  unfold bind at 1 in Hst.
  destruct (resolve_roh_mins E args w1) as [[r|c|e] w2] eqn:Hr;
    [| apply resolve_roh_mins_exit in Hr as ->; now right | now right].
  destruct (truthy (Args.bam_list args)).
  - destruct (read_bams_outcome (fmt (Args.bam_list args)) w2)
      as [(c & w' & Hread & ->)|(l & Hread)].
    + unfold run_bam_list, bind in Hst. rewrite Hread in Hst. now right.
    + destruct (run_bam_list_spec E args (base_cfg args t r) w2 l Hread)
        as (w' & Hrun & _).
      rewrite Hrun in Hst. destruct (_ <? _)%nat; auto.
  - unfold run_one_bam, bind in Hst.
    destruct (run_returns E (Args.bam args) (Args.out_prefix args) args
                (base_cfg args t r) w2) as ([] & w' & Hrun & _);
      rewrite Hrun in Hst; auto.
Qed.

(** X5. The three exit statuses: the program ends with status 0, 1 or 2,
    and, help requests by the bare command or the lone flag aside, with
    status 2 exactly when the parser refuses the command line. *)
Theorem status_two_is_the_parser (argv : list cli_opt) (w : world) :
  (run_status E argv w = 0 \/ run_status E argv w = 1 \/ run_status E argv w = 2)
  /\ (argv <> [] -> argv <> [Flag d_help] ->
      (run_status E argv w = 2 <-> ~ accepted E argv)).
Proof.
  unfold run_status.
  assert (Hspecial : argv = [] \/ argv = [Flag d_help]
                     \/ (argv <> [] /\ argv <> [Flag d_help])).
  { destruct argv as [|[d a|[]] [|o argv']]; auto; right; right; split; discriminate. }
  destruct Hspecial as [->|[->|[Hne Hnh]]].
  - split; [now left | contradiction].
  - split; [now left | contradiction].
  - rewrite main_parses by assumption. unfold bind.
    destruct (parse_args_cases E argv w) as [(pos & Hpos & Hreq & ->)|(Hno & msg & ->)].
    + assert (Hacc : accepted E argv) by (exists pos; auto).
      destruct (main_with_status (namespace pos) w) as [H0|H1].
      * split; [now left|]. intros _ _. rewrite H0. split; [discriminate | tauto].
      * split; [right; now left|]. intros _ _. rewrite H1. split; [discriminate | tauto].
    + split; [right; now right|]. intros _ _. simpl. tauto.
Qed.

End Status.

(** ** The configuration of a run *)

Lemma dict_get_set (k k' : string) (v : value) (d : config) :
  dict_get k' (dict_set k v d) = if String.eqb k' k then Some v else dict_get k' d.
Proof.
  induction d as [|[k0 v0] d IH]; simpl.
  - reflexivity.
  - destruct (String.eqb_spec k k0) as [<-|Hne]; simpl.
    + now destruct (String.eqb k' k).
    + rewrite IH. destruct (String.eqb_spec k' k0) as [->|Hne'];
        [|reflexivity].
      destruct (String.eqb_spec k0 k); [congruence | reflexivity].
Qed.

Lemma dict_set_keys (k : string) (v : value) (d : config) :
  map fst (dict_set k v d)
  = map fst d ++ (if existsb (String.eqb k) (map fst d) then [] else [k]).
Proof.
  induction d as [|[k0 v0] d IH]; simpl; [reflexivity|].
  destruct (String.eqb_spec k k0) as [<-|Hne]; simpl.
  - now rewrite app_nil_r.
  - now rewrite IH.
Qed.

(** X6. The configuration of a run is the base configuration with the
    sample laid over it: [bam] and [prefix] hold the sample's, every other
    field reads as in the base; the fields of the base keep their places,
    and [bam] and [prefix], when the base has not got them, come last in
    this order. For the base that [main] builds the fields are the ten of
    the artifact, in their order. *)
Theorem run_cfg_overlay (bam_path prefix : option string) (base : config) :
  (forall key : string,
     dict_get key (run_cfg bam_path prefix base)
     = if String.eqb key "prefix" then Some (opt_value prefix)
       else if String.eqb key "bam" then Some (opt_value bam_path)
       else dict_get key base)
  /\ map fst (run_cfg bam_path prefix base)
     = map fst base
       ++ (if existsb (String.eqb "bam") (map fst base) then [] else ["bam"])
       ++ (if existsb (String.eqb "prefix") (map fst base) then [] else ["prefix"])
  /\ forall (args : Args.t) (thresholds roh_mins : list item),
       map fst (run_cfg bam_path prefix (base_cfg args thresholds roh_mins))
       = ["rf"; "regions"; "scripts"; "outdir"; "min_depth"; "thresholds";
          "roh_min"; "angsd_threads"; "bam"; "prefix"].
Proof.
  split; [|split].
  - intros key. unfold run_cfg. now rewrite !dict_get_set.
  - unfold run_cfg. rewrite !dict_set_keys, <- app_assoc. f_equal. f_equal.
    rewrite existsb_app. destruct (existsb (String.eqb "prefix") (map fst base)).
    + reflexivity.
    + now destruct (existsb (String.eqb "bam") (map fst base)).
  - reflexivity.
Qed.

(** ** The engine *)

Section Engine.

Context (E : env) (args : Args.t).
Implicit Types (w : world) (cfg : config).


(** What a run adds to the processes started: nothing, when it is skipped
    or a dry run, or the one command built for its configuration file. *)
Lemma run_procs (bam_path prefix : option string) (cfg : config) (w : world) :
  exists ok w',
    run_single_bam E bam_path prefix args cfg w = (Ret ok, w')
    /\ ((procs w' = procs w /\ (ok = true -> Args.dry_run args = true))
        \/ (procs w' = procs w ++ [build_cmd args (cfg_path_of args prefix)]
            /\ Args.dry_run args = false)).
Proof.
  destruct (skips args (cfg_path_of args prefix) w) eqn:Hskip.
  - destruct (run_skipped E bam_path prefix args cfg w Hskip) as (w' & Hrun & _ & Hp & _).
    exists false, w'. split; [assumption|]. left. split; [assumption | discriminate].
  - destruct (run_proceeds E bam_path prefix args cfg w Hskip)
      as (w1 & _ & Hp & _ & _ & Hrun).
    rewrite Hrun. destruct (Args.dry_run args).
    + eexists _, _. split; [reflexivity|]. left. simpl. auto.
    + destruct (negb _); eexists _, _; (split; [reflexivity|]); right; simpl;
        now rewrite Hp.
Qed.

(** X7. In a batch the engine is started at most once for each sample, in
    the order of the list, each time with the command line built for the
    configuration file of that sample, and never in a dry run; outside a
    dry run no sample counts as succeeded unless the engine was started
    for it. *)
Theorem engine_runs (cfg : config) (l : list (string * string)) (n : nat) (w : world) :
  exists (m : nat) (w' : world) (ran : list (string * string)),
    batch_loop E args cfg (map pair_item l) n w = (Ret m, w')
    /\ procs w'
       = procs w ++ map (fun e => build_cmd args (cfg_path_of args (Some (snd e)))) ran
    /\ sublist ran l
    /\ (Args.dry_run args = true -> ran = [])
    /\ (Args.dry_run args = false -> (m <= n + length ran)%nat).
Proof.
  revert n w. induction l as [|[b p] l IH]; intros n w.
  - exists n, w, []. simpl. rewrite app_nil_r.
    split; [reflexivity|]. split; [reflexivity|]. split; [constructor|].
    split; [reflexivity | lia].
  - cbn [map pair_item fst snd batch_loop]. unfold bind.
    destruct (run_procs (Some b) (Some p) cfg w) as (ok & w1 & -> & Hcase).
    destruct (IH (if ok then S n else n) w1) as (m & w' & ran & -> & Hp & Hsub & Hdry & Hle).
    destruct Hcase as [[Hp1 Hok]|[Hp1 Hnd]].
    + exists m, w', ran. split; [reflexivity|]. split; [now rewrite Hp, Hp1|].
      split; [now apply sublist_cons|]. split; [assumption|].
      intros Hnd. specialize (Hle Hnd). destruct ok; [|lia].
      specialize (Hok eq_refl). congruence.
    + exists m, w', ((b, p) :: ran). split; [reflexivity|].
      split; [rewrite Hp, Hp1, <- app_assoc; reflexivity|].
      split; [now apply sublist_skip|]. split; [congruence|].
      intros _. specialize (Hle Hnd). simpl. destruct ok; lia.
Qed.

(** A run under [--force] does not read standard input. *)
Lemma run_forced (bam_path prefix : option string) (cfg : config) (w : world) :
  Args.force args = true ->
  exists ok w',
    run_single_bam E bam_path prefix args cfg w = (Ret ok, w')
    /\ asked w' = asked w /\ answers w' = answers w.
Proof.
  intros Hforce. unfold_run. rewrite Hforce, andb_false_r. simpl.
  destruct (Args.dry_run args); simpl; [|destruct (negb _); simpl];
    eexists _, _; repeat split.
Qed.

Lemma batch_forced (cfg : config) (l : list item) (n : nat) (w : world) :
  Args.force args = true ->
  asked (snd (batch_loop E args cfg l n w)) = asked w.
Proof.
  intros Hforce. revert n w. induction l as [|[b p|x] l IH]; intros n w; simpl;
    try reflexivity.
  unfold bind.
  destruct (run_forced (Some b) (Some p) cfg w Hforce) as (ok & w1 & -> & Ha & _).
  now rewrite IH.
Qed.

End Engine.

(** X8. With [--force] the program never reads standard input: however
    many configuration files are in the way, the operator is not asked and
    the whole batch runs unattended. *)
Theorem force_never_asks (E : env) (args : Args.t) (w : world) :
  Args.force args = true ->
  asked (snd (main_with E args w)) = asked w.
Proof.
  intros Hforce. unfold main_with.
  destruct (Args.help args); [reflexivity|].
  destruct (_ && _); [reflexivity|].
  unfold bind at 1.
  destruct (resolve_thresholds E args w) as [[t| |] w1] eqn:Ht;
    apply resolve_thresholds_frame in Ht as (_ & _ & _ & _ & Ha1); try exact Ha1.
  unfold bind at 1.
  destruct (resolve_roh_mins E args w1) as [[r| |] w2] eqn:Hr;
    apply resolve_roh_mins_frame in Hr as (_ & _ & _ & _ & Ha2);
    try (simpl; congruence).
  destruct (truthy (Args.bam_list args)).
  - unfold run_bam_list, bind at 1.
    destruct (read_file_list E _ "bams" w2) as [[l| |] w3] eqn:Hl;
      apply read_file_list_frame in Hl as (_ & _ & _ & _ & Ha3);
      try (simpl; congruence).
    unfold bind at 1, print at 1. unfold bind at 1.
    pose proof (batch_forced E args (base_cfg args t r) l 0%nat
                  (out ("Found " +:+ Py.str (Z.of_nat (length l))
                        +:+ " BAM files to process") w3) Hforce) as Hb.
    destruct (batch_loop _ _ _ _ _ _) as [[n| |] w4]; simpl in Hb;
      try (simpl; congruence).
    unfold bind, print, sys_exit, ret. simpl.
    destruct (n <? length l)%nat; simpl; congruence.
  - unfold run_one_bam, bind.
    destruct (run_forced E args (Args.bam args) (Args.out_prefix args)
                (base_cfg args t r) w2 Hforce) as (ok & w3 & -> & Ha & _).
    destruct ok; simpl; congruence.
Qed.

(** ** Configuration files across runs *)

Lemma slength_app (s t : string) :
  String.length (s +:+ t) = (String.length s + String.length t)%nat.
Proof. induction s as [|c s IH]; [reflexivity|]. rewrite sapp_cons. simpl. now rewrite IH. Qed.

Lemma sapp_inj_r (p q s : string) : p +:+ s = q +:+ s -> p = q.
Proof.
  revert q. induction p as [|c p IH]; intros [|d q] H; try reflexivity.
  - rewrite sapp_nil_l, sapp_cons in H. apply (f_equal String.length) in H.
    simpl in H. rewrite slength_app in H. lia.
  - rewrite sapp_nil_l, sapp_cons in H. apply (f_equal String.length) in H.
    simpl in H. rewrite slength_app in H. lia.
  - rewrite !sapp_cons in H. injection H as -> H. f_equal. now apply IH.
Qed.

Section Paths2.

Context (E : env) (args : Args.t).
Implicit Types (w : world) (cfg : config).

(** What a dry run does to the files and what it returns. *)
Lemma dry_run_outcome (bam_path prefix : option string) cfg w :
  Args.dry_run args = true ->
  let p := cfg_path_of args prefix in
  exists w',
    run_single_bam E bam_path prefix args cfg w = (Ret (negb (skips args p w)), w')
    /\ fs w' = (if skips args p w then fs w
                else <[p := safe_dump E (run_cfg bam_path prefix cfg)]> (fs w))
    /\ answers w' = answers w
    /\ asked w' = (if bool_decide (is_Some (fs w !! p)) && negb (Args.force args)
                   then S (asked w) else asked w).
Proof.
  intros Hdry p. unfold skips. fold p. unfold_run. fold p. rewrite Hdry.
  destruct (bool_decide (is_Some (fs w !! p)) && negb (Args.force args)); simpl.
  - destruct (is_yes (answers w (asked w))); simpl; eexists; repeat split.
  - eexists. repeat split.
Qed.

(** X9. One configuration path given with [--configfile] serves every
    sample. So in a dry run without [--force], once a run has written the
    file, the next run, of whatever sample, finds it in the way: it asks
    the operator and succeeds exactly when the answer is a yes. *)
Theorem shared_config_path (bam1 prefix1 bam2 prefix2 : option string)
    (cfg1 cfg2 : config) (w w1 : world) :
  truthy (Args.configfile args) = true ->
  Args.dry_run args = true ->
  Args.force args = false ->
  run_single_bam E bam1 prefix1 args cfg1 w = (Ret true, w1) ->
  cfg_path_of args prefix1 = cfg_path_of args prefix2
  /\ is_Some (fs w1 !! cfg_path_of args prefix2)
  /\ fst (run_single_bam E bam2 prefix2 args cfg2 w1)
     = Ret (is_yes (answers w1 (asked w1)))
  /\ asked (snd (run_single_bam E bam2 prefix2 args cfg2 w1)) = S (asked w1).
Proof.
  intros Hcfg Hdry Hforce Hrun1.
  assert (Hpath : cfg_path_of args prefix1 = cfg_path_of args prefix2).
  { unfold cfg_path_of. now rewrite Hcfg. }
  split; [exact Hpath|].
  destruct (dry_run_outcome bam1 prefix1 cfg1 w Hdry) as (w1' & Hrun1' & Hfs1 & _).
  rewrite Hrun1 in Hrun1'. injection Hrun1' as Hskip <-.
  symmetry in Hskip. apply negb_true_iff in Hskip. rewrite Hskip, Hpath in Hfs1.
  assert (Hex : is_Some (fs w1 !! cfg_path_of args prefix2)).
  { rewrite Hfs1, lookup_insert_eq. eauto. }
  split; [exact Hex|].
  destruct (dry_run_outcome bam2 prefix2 cfg2 w1 Hdry) as (w2 & -> & _ & _ & Hasked).
  unfold skips. rewrite bool_decide_eq_true_2, Hforce in * by assumption.
  simpl in *. rewrite negb_involutive. auto.
Qed.

(** X10. Without [--configfile] every prefix has a configuration file of
    its own: two different prefixes never share a path, so a dry run of
    one sample leaves the configuration file of any other sample as it
    is. *)
Theorem own_config_path (bam_path : option string) (prefix other : string)
    (cfg : config) (w : world) :
  truthy (Args.configfile args) = false ->
  prefix <> other ->
  cfg_path_of args (Some prefix) <> cfg_path_of args (Some other)
  /\ (Args.dry_run args = true ->
      fs (snd (run_single_bam E bam_path (Some prefix) args cfg w))
        !! cfg_path_of args (Some other)
      = fs w !! cfg_path_of args (Some other)).
Proof.
  intros Hcfg Hne.
  assert (Hpath : cfg_path_of args (Some prefix) <> cfg_path_of args (Some other)).
  { unfold cfg_path_of. rewrite Hcfg. simpl. intros H.
    apply String.app_inj, sapp_inj_r in H. contradiction. }
  split; [exact Hpath|]. intros Hdry.
  destruct (dry_run_outcome bam_path (Some prefix) cfg w Hdry) as (w' & Hrun & Hfs & _).
  rewrite Hrun. cbn [snd]. rewrite Hfs.
  destruct (skips _ _ _); [reflexivity|]. now rewrite lookup_insert_ne.
Qed.

Lemma batch_loop_out_prefix (o : option string) cfg (l : list item) n w :
  batch_loop E (with_out_prefix o args) cfg l n w = batch_loop E args cfg l n w.
Proof.
  revert n w. induction l as [|[b p|x] l IH]; intros n w; simpl; try reflexivity.
  unfold bind.
  change (run_single_bam E (Some b) (Some p) (with_out_prefix o args) cfg w)
    with (run_single_bam E (Some b) (Some p) args cfg w).
  destruct (run_single_bam E (Some b) (Some p) args cfg w) as [[ok| |] w'];
    try reflexivity.
  apply IH.
Qed.

Lemma run_bam_list_out_prefix (o : option string) cfg w :
  run_bam_list E (with_out_prefix o args) cfg w = run_bam_list E args cfg w.
Proof.
  unfold run_bam_list, bind.
  change (Args.bam_list (with_out_prefix o args)) with (Args.bam_list args).
  destruct (read_file_list E (fmt (Args.bam_list args)) "bams" w) as [[l| |] w3];
    try reflexivity.
  unfold print at 1 4. rewrite batch_loop_out_prefix. reflexivity.
Qed.

(** X16. With a list of samples the output prefix counts for nothing: given
    [--bam-list] and no [--bam], the program does the same, to the last
    line printed, whatever [--out-prefix] holds. *)
Theorem out_prefix_ignored_for_list (o : option string) (w : world) :
  Args.bam args = None ->
  truthy (Args.bam_list args) = true ->
  main_with E (with_out_prefix o args) w = main_with E args w.
Proof.
  intros Hbam Hlist. unfold main_with, bind.
  change (Args.help (with_out_prefix o args)) with (Args.help args).
  change (Args.bam (with_out_prefix o args)) with (Args.bam args).
  change (Args.bam_list (with_out_prefix o args)) with (Args.bam_list args).
  change (resolve_thresholds E (with_out_prefix o args))
    with (resolve_thresholds E args).
  change (resolve_roh_mins E (with_out_prefix o args))
    with (resolve_roh_mins E args).
  rewrite Hbam, Hlist. cbn [truthy andb].
  destruct (Args.help args); [reflexivity|].
  destruct (resolve_thresholds E args w) as [[t| |] w1]; try reflexivity.
  destruct (resolve_roh_mins E args w1) as [[r| |] w2]; try reflexivity.
  apply run_bam_list_out_prefix.
Qed.

End Paths2.

(** ** The operator's answer *)

Section Answer.

Implicit Types (s t ws : string) (c : ascii).

Lemma isspace_lower c : Py.isspace (Py.lower_char c) = Py.isspace c.
Proof. destruct c as [[] [] [] [] [] [] [] []]; reflexivity. Qed.

Lemma lower_app s t : Py.lower (s +:+ t) = Py.lower s +:+ Py.lower t.
Proof.
  induction s as [|c s IH]; [reflexivity|].
  rewrite sapp_cons. simpl. now rewrite IH, sapp_cons.
Qed.

Lemma all_space_lower s : all_space (Py.lower s) = all_space s.
Proof. induction s as [|c s IH]; simpl; [reflexivity|]. now rewrite isspace_lower, IH. Qed.

Lemma lstrip_lower s : Py.lstrip (Py.lower s) = Py.lower (Py.lstrip s).
Proof.
  induction s as [|c s IH]; simpl; [reflexivity|].
  rewrite isspace_lower. now destruct (Py.isspace c).
Qed.

Lemma rstrip_lower s : Py.rstrip (Py.lower s) = Py.lower (Py.rstrip s).
Proof.
  induction s as [|c s IH]; simpl; [reflexivity|].
  rewrite IH, isspace_lower.
  destruct (Py.rstrip s); simpl; [now destruct (Py.isspace c) | reflexivity].
Qed.

Lemma strip_lower s : Py.strip (Py.lower s) = Py.lower (Py.strip s).
Proof. unfold Py.strip. now rewrite lstrip_lower, rstrip_lower. Qed.

Lemma rstrip_all_space ws : all_space ws = true -> Py.rstrip ws = "".
Proof.
  induction ws as [|c ws IH]; simpl; [reflexivity|].
  intros [Hc Hws]%andb_true_iff. now rewrite IH, Hc.
Qed.

Lemma rstrip_spaces s ws : all_space ws = true -> Py.rstrip (s +:+ ws) = Py.rstrip s.
Proof.
  intros Hws. induction s as [|c s IH].
  - rewrite sapp_nil_l. now apply rstrip_all_space.
  - rewrite sapp_cons. simpl. now rewrite IH.
Qed.

Lemma strip_padding ws1 s ws2 :
  all_space ws1 = true -> all_space ws2 = true ->
  Py.strip (ws1 +:+ s +:+ ws2) = Py.strip s.
Proof.
  intros H1 H2. unfold Py.strip. rewrite lstrip_spaces by assumption.
  induction s as [|c s IH].
  - rewrite sapp_nil_l. simpl.
    replace (Py.lstrip ws2) with "". { reflexivity. }
    clear -H2. induction ws2 as [|c ws IH]; simpl; [reflexivity|].
    apply andb_true_iff in H2 as [-> Hws]. now apply IH.
  - rewrite sapp_cons. simpl. destruct (Py.isspace c); [exact IH|].
    rewrite <- sapp_cons. now apply rstrip_spaces.
Qed.

Lemma lstrip_decomp s : exists ws, all_space ws = true /\ s = ws +:+ Py.lstrip s.
Proof.
  induction s as [|c s (ws & Hws & IH)]; [exists ""; auto|].
  simpl. destruct (Py.isspace c) eqn:Hc.
  - exists (String c ws). simpl. rewrite Hc, Hws, sapp_cons, <- IH. auto.
  - exists "". auto.
Qed.

Lemma rstrip_decomp s : exists ws, all_space ws = true /\ s = Py.rstrip s +:+ ws.
Proof.
  induction s as [|c s (ws & Hws & IH)]; [exists ""; auto|].
  simpl. destruct (Py.rstrip s) as [|d r] eqn:Hr.
  - rewrite sapp_nil_l in IH. subst ws. destruct (Py.isspace c) eqn:Hc.
    + exists (String c s). simpl. now rewrite Hc, Hws.
    + exists s. now rewrite sapp_cons, sapp_nil_l.
  - exists ws. rewrite sapp_cons, <- IH. auto.
Qed.

(** X12. The answers that let a run overwrite are exactly [y] and [yes] in
    any letter case with any white space around them; everything else,
    the empty answer included, declines. *)
Theorem yes_answers (line : string) :
  is_yes line = true
  <-> exists ws1 word ws2,
        line = ws1 +:+ word +:+ ws2
        /\ all_space ws1 = true /\ all_space ws2 = true
        /\ (Py.lower word = "y" \/ Py.lower word = "yes").
Proof.
  unfold is_yes. rewrite orb_true_iff, !String.eqb_eq. split.
  - rewrite strip_lower. intros Hyes.
    destruct (lstrip_decomp line) as (ws1 & H1 & Hl).
    destruct (rstrip_decomp (Py.lstrip line)) as (ws2 & H2 & Hr).
    exists ws1, (Py.strip line), ws2. unfold Py.strip in *.
    rewrite <- Hr. auto.
  - intros (ws1 & word & ws2 & -> & H1 & H2 & Hyes).
    rewrite !lower_app, strip_padding by now rewrite all_space_lower.
    destruct Hyes as [-> | ->]; [left | right]; reflexivity.
Qed.

End Answer.

(** ** Sample-list lines *)

Section Lines.

Implicit Types (s t p cur : string) (c : ascii).

Lemma occurs_snoc c s : occurs c (s +:+ String c "") = true.
Proof.
  induction s as [|d s IH]; [simpl; now rewrite Ascii.eqb_refl|].
  rewrite sapp_cons. simpl. rewrite IH. apply orb_true_r.
Qed.

(** What ends in a slash and is cut before a part without slash is cut at
    its end. *)
Lemma slash_last d dir b :
  d +:+ "/" = dir +:+ b -> occurs "/" b = false -> b = "".
Proof.
  revert d. induction dir as [|c dir IH]; intros d H Hocc.
  - rewrite sapp_nil_l in H. subst b. now rewrite occurs_snoc in Hocc.
  - destruct d as [|c' d']; rewrite !sapp_cons in H.
    + rewrite sapp_nil_l in H. injection H as _ H. symmetry in H.
      now apply sapp_eq_nil in H.
    + injection H as _ H. eapply IH; eassumption.
Qed.

Lemma basename_empty p :
  Py.basename p = "" <-> p = "" \/ exists d, p = d +:+ "/".
Proof.
  split.
  - unfold Py.basename, Py.rfind.
    destruct (rfind_from_spec "/" 0 p ltac:(lia)) as [[Hr Hocc]|(Hrange & Hdrop & Hocc)].
    + rewrite Hr. simpl. auto.
    + set (r := Py.rfind_from "/" 0 p) in *.
      replace (r - 0) with r in * by lia.
      replace (Z.to_nat (r + 1)) with (S (Z.to_nat r)) by lia.
      intros Hb. right. exists (Py.take (Z.to_nat r) p).
      rewrite <- (take_drop (Z.to_nat r) p) at 1. now rewrite Hdrop, Hb.
  - intros [->|[d ->]]; [reflexivity|].
    destruct (basename_spec (d +:+ "/")) as (dir & Hdir & Hocc & _).
    eapply slash_last; eassumption.
Qed.

Lemma has_non_dot_zero p i : Py.has_non_dot p i 0 = false.
Proof. reflexivity. Qed.

Lemma splitext_root_empty b : fst (Py.splitext b) = "" <-> b = "".
Proof.
  split; [|now intros ->].
  unfold Py.splitext, Py.rfind.
  destruct (rfind_from_spec "/" 0 b ltac:(lia)) as [[Hs _]|(Hs & _)];
  destruct (rfind_from_spec "." 0 b ltac:(lia)) as [[Hd _]|(Hd & _)];
  set (sep := Py.rfind_from "/" 0 b) in *;
  set (dot := Py.rfind_from "." 0 b) in *;
  match goal with
  | |- context [if ?cond then _ else _] => destruct cond eqn:Hb
  end; simpl; auto;
  apply andb_true_iff in Hb as [Hlt%Z.ltb_lt Hnd]; try lia.
  all: destruct (Z.to_nat (dot - (sep + 1))) as [|n] eqn:Hn;
    [rewrite has_non_dot_zero in Hnd; discriminate|].
  all: destruct b as [|c b']; [simpl in Hd; lia|].
  all: replace (Z.to_nat dot) with (S (Z.to_nat (dot - 1))) by lia.
  all: discriminate.
Qed.

(** X11. The prefix derived from a path is empty exactly when the path ends
    in a slash (or is empty): a sample-list line that holds only such a
    path yields the empty prefix. *)
Theorem derived_prefix_empty (p : string) :
  (fst (Py.splitext (Py.basename p)) = "" <-> p = "" \/ exists d, p = d +:+ "/")
  /\ (no_space p = true -> p <> "" ->
      (bam_item p = Some (Pair p "") <-> exists d, p = d +:+ "/")).
Proof.
  assert (Hiff : fst (Py.splitext (Py.basename p)) = ""
                 <-> p = "" \/ exists d, p = d +:+ "/").
  { rewrite splitext_root_empty. apply basename_empty. }
  split; [exact Hiff|]. intros Hns Hne.
  assert (Hitem : bam_item p = Some (Pair p (fst (Py.splitext (Py.basename p))))).
  { unfold bam_item, Py.split.
    rewrite <- (sapp_nil_r p) at 1. rewrite split_from_word by assumption.
    rewrite sapp_nil_l. simpl.
    destruct (String.eqb_spec p ""); [contradiction | reflexivity]. }
  rewrite Hitem. split.
  - intros [= Hstem]. apply Hiff in Hstem as [->|Hd]; [contradiction | exact Hd].
  - intros Hd. f_equal. f_equal. apply Hiff. now right.
Qed.

Lemma no_space_app s t : no_space (s +:+ t) = no_space s && no_space t.
Proof.
  induction s as [|c s IH]; [reflexivity|].
  rewrite sapp_cons. simpl. now rewrite IH, andb_assoc.
Qed.

(** The words of a line are not empty and hold no white space. *)
Lemma split_from_words cur s :
  no_space cur = true ->
  Forall (fun t => t <> "" /\ no_space t = true) (Py.split_from cur s).
Proof.
  revert cur. induction s as [|c s IH]; intros cur Hcur; simpl.
  - destruct (String.eqb_spec cur ""); constructor; auto.
  - destruct (Py.isspace c) eqn:Hc.
    + destruct (String.eqb_spec cur ""); [now apply IH|].
      constructor; [auto | now apply IH].
    + apply IH. rewrite no_space_app, Hcur. simpl. now rewrite Hc.
Qed.

Lemma no_space_take n s : no_space s = true -> no_space (Py.take n s) = true.
Proof.
  revert s. induction n as [|n IH]; intros [|c s]; simpl; try reflexivity.
  intros [-> Hs]%andb_true_iff. now apply IH.
Qed.

Lemma no_space_drop n s : no_space s = true -> no_space (Py.drop n s) = true.
Proof.
  revert s. induction n as [|n IH]; intros [|c s]; simpl; try tauto.
  intros [_ Hs]%andb_true_iff. now apply IH.
Qed.

Lemma bam_item_words line it :
  bam_item line = Some it ->
  exists bam_path prefix,
    it = Pair bam_path prefix
    /\ bam_path <> "" /\ no_space bam_path = true /\ no_space prefix = true.
Proof.
  unfold bam_item, Py.split.
  pose proof (split_from_words "" line eq_refl) as Hwords.
  destruct (Py.split_from "" line) as [|b rest]; [discriminate|].
  intros [= <-]. inversion Hwords as [|? ? [Hb Hbs] Hrest]; subst.
  eexists _, _. split; [reflexivity|]. split; [assumption|]. split; [assumption|].
  destruct rest as [|second rest'].
  - unfold Py.splitext.
    destruct (_ && _); simpl; [apply no_space_take|]; unfold Py.basename;
      now apply no_space_drop.
  - inversion Hrest as [|? ? [_ Hsecond] _]; subst. exact Hsecond.
Qed.

(** X15. White space ends a path: every item of a list of samples has a
    path that is not empty and holds no white space, and a prefix that
    holds no white space; a path written with a space in it is read as a
    path and a prefix. *)
Theorem sample_paths_have_no_space (E : env) (filepath : string) (w w' : world)
    (items : list item) :
  read_file_list E filepath "bams" w = (Ret items, w') ->
  Forall (fun it => exists bam_path prefix,
                      it = Pair bam_path prefix
                      /\ bam_path <> "" /\ no_space bam_path = true
                      /\ no_space prefix = true) items.
Proof.
  intros (_ & content & l & _ & _ & Hitems)%bams_are_pairs.
  apply List.Forall_forall. intros it Hin.
  apply (List.in_map Some) in Hin. rewrite <- Hitems in Hin.
  apply List.in_map_iff in Hin as (e & He & _).
  eapply bam_item_words, He.
Qed.

End Lines.

(** ** Line numbers *)

Section LineNumbers.

Context (E : env).

Lemma find_numbered (lt : string) (lines : list string) (n k : nat) (line : string) :
  lines !! k = Some line ->
  is_entry (Py.strip line) = true ->
  item_of E lt (Py.strip line) = None ->
  (forall j earlier,
     (j < k)%nat -> lines !! j = Some earlier ->
     is_entry (Py.strip earlier) = true ->
     is_Some (item_of E lt (Py.strip earlier))) ->
  List.find (unreadable E lt)
    (List.filter (fun e => is_entry (snd e)) (numbered n lines))
  = Some ((n + k)%nat, Py.strip line).
Proof.
  revert n k. induction lines as [|l lines IH]; intros n k Hk Hentry Hbad Hearlier.
  - discriminate.
  - destruct k as [|k]; cbn [numbered List.filter snd].
    + injection Hk as ->. rewrite Hentry. cbn [List.find].
      unfold unreadable. cbn [snd]. rewrite Hbad. now rewrite Nat.add_0_r.
    + assert (Hrest : List.find (unreadable E lt)
                        (List.filter (fun e => is_entry (snd e)) (numbered (S n) lines))
                      = Some ((n + S k)%nat, Py.strip line)).
      { replace (n + S k)%nat with (S n + k)%nat by lia.
        apply IH; try assumption.
        intros j earlier Hj Hl. apply (Hearlier (S j) earlier); [lia | exact Hl]. }
      destruct (is_entry (Py.strip l)) eqn:Hl; [|exact Hrest].
      cbn [List.find]. unfold unreadable at 1. cbn [snd].
      destruct (Hearlier 0%nat l ltac:(lia) eq_refl Hl) as [it ->]. exact Hrest.
Qed.

(** X13. The line number of a parse error is the place of the line in the
    file, counted from 1 with blank and comment lines counted too: when
    the line at index [k] is the first non-blank, non-comment line of a
    list of values that is not a number, the list is refused with that
    line's stripped text and the number [k + 1]. *)
Theorem reported_line_number (filepath list_type content : string) (w : world)
    (k : nat) (line : string) :
  String.eqb list_type "bams" = false ->
  fs w !! filepath = Some content ->
  Py.file_lines content !! k = Some line ->
  is_entry (Py.strip line) = true ->
  float_of_str E (Py.strip line) = None ->
  (forall j earlier,
     (j < k)%nat -> Py.file_lines content !! j = Some earlier ->
     is_entry (Py.strip earlier) = true ->
     is_Some (float_of_str E (Py.strip earlier))) ->
  read_file_list E filepath list_type w
  = (Exit 1,
     err ("Error: Invalid " +:+ list_type +:+ " value '" +:+ Py.strip line
          +:+ "' on line " +:+ Py.str (Z.of_nat (S k)) +:+ " in " +:+ filepath) w).
Proof.
  intros Hlt Hfs Hk Hentry Hbad Hearlier.
  rewrite read_file_list_spec, Hfs. unfold entries.
  rewrite (find_numbered list_type _ 1 k line Hk Hentry).
  - now rewrite Hlt.
  - unfold item_of. now rewrite Hlt, Hbad.
  - intros j earlier Hj Hl He. unfold item_of. rewrite Hlt.
    destruct (Hearlier j earlier Hj Hl He) as [x ->]. simpl. eauto.
Qed.

End LineNumbers.

(** ** Thresholds and the displayed command *)

Section More.

Context (E : env) (args : Args.t).
Implicit Types (w : world) (cfg : config).

(** X17. The het-calling thresholds are never collapsed: the resolved
    sequence is a non-empty sequence of numbers, taken from the list file,
    else from the repeated flags in their order, else the single default
    0.05, and the [thresholds] field of the configuration holds it as a
    list even when it has one number. Resolving it from the flags or the
    default changes nothing in the world. *)
Theorem thresholds_stay_a_list (roh_mins : list item) (bam_path prefix : option string)
    (w : world) (thresholds : list item) (w' : world) :
  resolve_thresholds E args w = (Ret thresholds, w') ->
  w' = w
  /\ (0 < length thresholds)%nat
  /\ Forall (fun i => exists x, i = Num x) thresholds
  /\ dict_get "thresholds" (run_cfg bam_path prefix (base_cfg args thresholds roh_mins))
     = Some (VList thresholds)
  /\ (truthy (Args.threshold_list args) = false ->
      thresholds = match Args.threshold args with
                   | [] => [Num default_threshold]
                   | given => map Num given
                   end).
Proof.
  intros Hres. unfold resolve_thresholds in Hres.
  destruct (truthy (Args.threshold_list args)).
  - pose proof (values_are_numbers E _ "thresholds" _ _ _ eq_refl Hres) as [Hne Hnum].
    assert (w' = w) as ->.
    { rewrite read_file_list_spec in Hres.
      destruct (fs w !! _); [destruct (List.find _ _) as [[k text]|];
        [discriminate | destruct (omap _ _)] |]; congruence. }
    split; [reflexivity|].
    split; [destruct thresholds; [contradiction | simpl; lia]|].
    split; [assumption|]. split; [reflexivity | discriminate].
  - destruct (Args.threshold args) as [|x xs] eqn:Hflags;
      injection Hres as <- <-; (split; [reflexivity|]); (split; [simpl; lia|]).
    + split; [repeat constructor; eauto|]. split; reflexivity.
    + split; [|split; reflexivity].
      apply List.Forall_forall. intros i Hi.
      change (In i (map Num (x :: xs))) in Hi.
      apply List.in_map_iff in Hi as [y [<- _]]. eauto.
Qed.


End More.

(** ** The further properties at work *)

Lemma exclusive_groups_witness :
  exists msg,
    main sample_env argv_two_thresholds world_fresh
    = (Exit 2, err ("hetcall: error: " +:+ msg) world_fresh).
Proof.
  apply (exclusive_groups sample_env argv_two_thresholds world_fresh
           d_threshold d_threshold_list); simpl; auto.
Defined.

Lemma one_sample_source_witness :
  exists msg,
    main sample_env [Flag d_dry_run] world_fresh
    = (Exit 2, err ("hetcall: error: " +:+ msg) world_fresh).
Proof.
  apply (proj2 (one_sample_source sample_env [Flag d_dry_run] world_fresh));
    try discriminate; simpl; intros [Hd|[]]; discriminate.
Defined.

Lemma parsed_arguments_witness :
  sample_int "200" = Some (Args.cores (namespace
    [Pstr d_bam "x.bam"; Pstr d_out_prefix "s"; Pint d_cores 4; Pint d_cores 200;
     Pfloat d_threshold default_threshold; Pfloat d_threshold 0x1.999999999999ap-4%float;
     Pflag d_dry_run])).
Proof.
  destruct (parsed_arguments sample_env argv_repeated world_fresh _ _ eq_refl)
    as (_ & _ & _ & (_ & Hcores) & _).
  exact Hcores.
Defined.


Lemma status_two_is_the_parser_witness :
  run_status sample_env argv_two_thresholds world_fresh = 2
  <-> ~ accepted sample_env argv_two_thresholds.
Proof.
  apply (proj2 (status_two_is_the_parser sample_env argv_two_thresholds world_fresh));
    discriminate.
Defined.

Lemma force_never_asks_witness :
  asked (snd (main_with sample_env
                (namespace [Pstr d_bam_list "list.txt"; Pflag d_force]) world_existing))
  = asked world_existing.
Proof. apply force_never_asks. reflexivity. Defined.

Lemma shared_config_path_witness :
  is_Some (fs world_after_first !! "cfg.yaml")
  /\ fst (run_single_bam sample_env (Some "b.bam") (Some "b") args_shared_config []
            world_after_first) = Ret false.
Proof.
  destruct (shared_config_path sample_env args_shared_config
              (Some "a.bam") (Some "a") (Some "b.bam") (Some "b") [] []
              world_fresh world_after_first eq_refl eq_refl eq_refl eq_refl)
    as (_ & Hex & Hrun & _).
  split; [exact Hex | exact Hrun].
Defined.

Lemma own_config_path_witness :
  cfg_path_of (namespace []) (Some "a") <> cfg_path_of (namespace []) (Some "b").
Proof.
  apply (proj1 (own_config_path sample_env (namespace []) (Some "a.bam") "a" "b" []
                  world_fresh eq_refl ltac:(discriminate))).
Defined.

Lemma derived_prefix_empty_witness :
  bam_item "/data/" = Some (Pair "/data/" "").
Proof.
  apply (proj2 (derived_prefix_empty "/data/") eq_refl ltac:(discriminate)).
  exists "/data". reflexivity.
Defined.

Lemma reported_line_number_witness :
  read_file_list sample_env "t.txt" "thresholds" world_thresholds
  = (Exit 1,
     err "Error: Invalid thresholds value '0,1' on line 3 in t.txt" world_thresholds).
Proof.
  apply (reported_line_number sample_env "t.txt" "thresholds"
           ("0.05" +:+ nl +:+ "# more" +:+ nl +:+ "0,1" +:+ nl)
           world_thresholds 2 ("0,1" +:+ nl)); try reflexivity.
  intros [|[|j]] earlier Hj Hline Hentry.
  - injection Hline as <-. exists default_threshold. reflexivity.
  - injection Hline as <-. discriminate Hentry.
  - lia.
Defined.


Lemma sample_paths_have_no_space_witness :
  Forall (fun it => exists bam_path prefix,
                      it = Pair bam_path prefix
                      /\ bam_path <> "" /\ no_space bam_path = true
                      /\ no_space prefix = true)
    [Pair "a.bam" "sampleA"; Pair "b.bam" "b"].
Proof.
  exact (sample_paths_have_no_space sample_env "list.txt" world_three_lines
           world_three_lines _ eq_refl).
Defined.

Lemma out_prefix_ignored_for_list_witness :
  main_with sample_env (with_out_prefix (Some "unused") args_list) world_three_lines
  = main_with sample_env args_list world_three_lines.
Proof. apply out_prefix_ignored_for_list; reflexivity. Defined.

Lemma thresholds_stay_a_list_witness :
  dict_get "thresholds"
    (run_cfg (Some "x.bam") (Some "s")
       (base_cfg (namespace [Pfloat d_threshold default_threshold])
          [Num default_threshold] [Num default_roh_min]))
  = Some (VList [Num default_threshold]).
Proof.
  destruct (thresholds_stay_a_list sample_env
              (namespace [Pfloat d_threshold default_threshold])
              [Num default_roh_min] (Some "x.bam") (Some "s")
              world_fresh [Num default_threshold] world_fresh eq_refl)
    as (_ & _ & _ & Hfield & _).
  exact Hfield.
Defined.


(** A path written with a space is read as a path and a prefix, and a
    path that ends in a slash gets the configuration file [config_.yaml]. *)
Example path_with_space :
  bam_item "/data/my sample.bam" = Some (Pair "/data/my" "sample.bam")
  /\ cfg_path_of (namespace []) (Some "") = "config_.yaml".
Proof. split; reflexivity. Qed.
